(** * Poetry's Chef: preparing an artifact for installation

    A shallow embedding of [src/poetry/installation/chef.py] and of the
    parts of [pathlib], [tempfile] and the collaborators it calls,
    followed by the properties of the preparation pipeline.

    Layout:
    - [pystr]: the [str] methods the code uses ([rfind], [rstrip], [join]);
    - [pathlib]: paths as component lists, [name], [suffix], [/], and the
      file-system queries [is_dir], [glob("*")], [mkdir(parents, exist_ok)];
    - exceptions, the store of dict objects, the world and its event log;
    - the exception/state monad in which the methods of [Chef] are written;
    - [tempfile.mkdtemp] and the scoped [temporary_directory];
    - [chef]: [_is_wheel], [_should_prepare], [_prepare], [_prepare_sdist],
      [prepare], with the imported collaborators ([decode], [extractall],
      the isolated builder) left open;
    - the steps of a run as functions of the world, and concrete
      collaborators for the examples;
    - the properties, one section per concern. *)

From Stdlib Require Import Ascii String.
From stdpp Require Import base option list strings gmap fin_maps.

Open Scope string_scope.
Open Scope list_scope.

(** ** Python [str] operations *)

Module pystr.

Definition chars (s : string) : list ascii := list_ascii_of_string s.
Definition of_chars (l : list ascii) : string := string_of_list_ascii l.

(** [rfind_from c i l]: the largest index of [c] in [l], indices counted
    from [i]; [None] stands for Python's [-1]. *)
Fixpoint rfind_from (c : ascii) (i : nat) (l : list ascii) : option nat :=
  match l with
  | [] => None
  | a :: l' =>
      match rfind_from c (S i) l' with
      | Some j => Some j
      | None => if Ascii.eqb a c then Some i else None
      end
  end.

(** [s.rfind(c)] for a one-character needle. *)
Definition rfind (c : ascii) (s : string) : option nat :=
  rfind_from c 0 (chars s).

(** [s[i:]] *)
Definition slice_from (i : nat) (s : string) : string :=
  of_chars (drop i (chars s)).

Definition mem (c : ascii) (set : list ascii) : bool :=
  existsb (Ascii.eqb c) set.

Fixpoint lstrip_chars (set : list ascii) (l : list ascii) : list ascii :=
  match l with
  | [] => []
  | a :: l' => if mem a set then lstrip_chars set l' else l
  end.

(** [s.rstrip(cs)]: [cs] is a SET of characters; every trailing character
    of [s] that occurs in [cs] is removed. *)
Definition rstrip (cs : string) (s : string) : string :=
  of_chars (rev (lstrip_chars (chars cs) (rev (chars s)))).

(** [sep.join(parts)] *)
Fixpoint join (sep : string) (parts : list string) : string :=
  match parts with
  | [] => ""
  | [p] => p
  | p :: rest => p +:+ sep +:+ join sep rest
  end.

(** [s.endswith(t)] and [t in s] *)
Definition endswith (t s : string) : bool :=
  String.prefix (of_chars (rev (chars t))) (of_chars (rev (chars s))).

Fixpoint contains (t s : string) : bool :=
  String.prefix t s ||
  match s with
  | EmptyString => false
  | String _ s' => contains t s'
  end.

(** The separator of [_prepare]'s message: two line feeds. *)
Definition LF : ascii := ascii_of_nat 10.
Definition blank_line : string := String LF (String LF EmptyString).

End pystr.

(** ** [pathlib] and the file system *)

Inductive node := Dir | File.

#[global] Instance node_eq_dec : EqDecision node.
Proof. solve_decision. Defined.

Module pathlib.

(** A path is the list of its components below the root. *)
Definition Path := list string.

(** [p.name]: the final component, empty for the root. *)
Definition name (p : Path) : string := List.last p "".

(** [p.suffix], as CPython (3.8 to 3.13) computes it:
<<
    name = self.name
    i = name.rfind('.')
    if 0 < i < len(name) - 1: return name[i:]
    else: return ''
>>
    A leading dot does not start a suffix, a trailing dot is none. *)
Definition suffix (p : Path) : string :=
  let name := name p in
  match pystr.rfind "." name with
  | Some i =>
      if (0 <? i)%nat && (i <? String.length name - 1)%nat
      then pystr.slice_from i name
      else ""
  | None => ""
  end.

(** [p / s] for a single component [s]; an empty [s] leaves [p]. *)
Definition joinpath (p : Path) (s : string) : Path :=
  if String.eqb s "" then p else p ++ [s].

(** [p.as_posix()] *)
Definition as_posix (p : Path) : string :=
  match p with
  | [] => "/"
  | _ => String.concat "" (List.map (fun c => "/" +:+ c) p)
  end.

(** The file system: which paths exist, and as what. The root is a
    directory and is not stored. *)
Abbreviation FS := (gmap (list string) node).

Definition exists_ (fs : FS) (p : Path) : bool :=
  match p with
  | [] => true
  | _ => bool_decide (is_Some (fs !! p))
  end.

(** [p.is_dir()] *)
Definition is_dir (fs : FS) (p : Path) : bool :=
  match p with
  | [] => true
  | _ => bool_decide (fs !! p = Some Dir)
  end.

Definition is_child_of (d q : Path) : bool :=
  bool_decide (q = d ++ [List.last q ""] /\ q <> []).

(** [list(d.glob("*"))]: the entries directly inside [d] (hidden ones
    included, as [pathlib] does). *)
Definition glob_star (fs : FS) (d : Path) : list Path :=
  List.filter (is_child_of d) (List.map fst (map_to_list fs)).

(** The non-empty prefixes of [p], shortest first. *)
Fixpoint ancestors_from (base : Path) (p : Path) : list Path :=
  match p with
  | [] => []
  | c :: rest => (base ++ [c]) :: ancestors_from (base ++ [c]) rest
  end.
Definition ancestors_and_self (p : Path) : list Path := ancestors_from [] p.

(** [p.mkdir(parents=True, exist_ok=True)]: fails, changing nothing, when
    [p] or one of its ancestors exists and is not a directory; otherwise
    [p] and all its missing ancestors become directories. *)
Definition mkdir_parents_exist_ok (fs : FS) (p : Path) : option FS :=
  if forallb (fun q => negb (bool_decide (fs !! q = Some File)))
             (ancestors_and_self p)
  then Some (foldr (fun q acc => <[q := Dir]> acc) fs (ancestors_and_self p))
  else None.

(** Whether [mkdir] fails on a component of the way to [p]: a proper
    ancestor of [p] is a regular file, and [os.mkdir] gives [ENOTDIR]
    ([NotADirectoryError]). Otherwise a failure is [EEXIST] on [p] itself
    ([FileExistsError]), which [exist_ok] forgives only for a directory. *)
Definition mkdir_not_a_directory (fs : FS) (p : Path) : bool :=
  existsb (fun q => bool_decide (fs !! q = Some File))
          (removelast (ancestors_and_self p)).

(** Removal of [p] and of everything below it. *)
Definition rmtree (fs : FS) (p : Path) : FS :=
  filter (fun kv => ~ p `prefix_of` kv.1) fs.

End pathlib.

Import pathlib (Path, FS).

(** ** Exceptions *)

Definition bytes := list Byte.byte.

(** The [exception] attribute of a [BuildBackendException]: either a
    [subprocess.CalledProcessError] with its captured streams, or any other
    exception, of which only [str()] is used. *)
Inductive inner_exception :=
| CalledProcessError (stderr stdout : option bytes)
| OtherInner (str_ : string).

(** The exception classes that occur. [ChefError] is declared by the module
    and raised nowhere in it; [IsolatedBuildError] is imported from
    [poetry.utils.isolated_build] on line 13, ten lines before [ChefError]
    is defined, so it cannot derive from [ChefError]. *)
Inductive exception :=
| BuildBackendException (str_ : string) (exception_ : inner_exception)
| IsolatedBuildError (message : string)
| ChefError (message : string)
| FileExistsError (message : string)
| NotADirectoryError (message : string)
| ValueError (message : string)
| OtherException (class_name message : string).




(** An exception in flight, with the attributes Python uses for chaining. *)
Record raised := {
  exc : exception;
  cause : option exception;          (* __cause__ *)
  context : option exception;        (* __context__ *)
  suppress_context : bool;           (* __suppress_context__ *)
}.

(** [raise e from None], executed while no exception is being handled. *)
Definition raise_from_None (e : exception) : raised :=
  {| exc := e; cause := None; context := None; suppress_context := true |}.

(** [raise e] executed while no exception is being handled. *)
Definition raise_plain (e : exception) : raised :=
  {| exc := e; cause := None; context := None; suppress_context := false |}.


(** ** Dict objects, build calls, the world *)

(** A dict object lives in a store and is passed by reference. *)
Definition loc := nat.
Abbreviation Settings := (gmap string string).
Abbreviation Heap := (gmap nat (gmap string string)).

(** The two default-argument dicts, created once when the [def]s of
    [prepare] and [_prepare] are executed. *)
Definition prepare_default_config_settings : loc := 0.
Definition _prepare_default_config_settings : loc := 1.

Definition RepositoryPool := string.

(** One use of the isolated builder: the arguments of [isolated_builder]
    and of [builder.build]. *)
Record BuildCall := {
  source : Path;
  distribution : string;
  python_executable : Path;
  pool : RepositoryPool;
  output_directory : string;
  config_settings : loc;
}.

(** What a call yields: a value, or an exception in flight. *)
Inductive Result (A : Type) :=
| Return (a : A)
| Raise (r : raised).
Arguments Return {A} a.
Arguments Raise {A} r.

(** The log of what was asked of the file system and of the collaborators.
    [ExtractAll] and [Build] are written when the collaborator comes back
    and carry its outcome; [Build] also carries what the builder was
    handed: the content of the settings dict and whether the destination
    was a directory when the builder was entered. *)
Inductive Event :=
| MkDtemp (p : Path)
| ExtractAll (source_ dest : Path) (zip : bool) (outcome : Result unit)
| MkDir (p : Path)
| Build (call : BuildCall) (settings_seen : option (gmap string string))
        (destination_is_dir : bool) (outcome : Result Path)
| RmTree (p : Path).

Record World := {
  fs : FS;
  heap : Heap;
  tempdir : Path;                 (* tempfile.gettempdir() *)
  tmp_names : list string;        (* the names tempfile will draw *)
  log : list Event;
}.

Definition set_fs (f : FS) (w : World) : World :=
  {| fs := f; heap := heap w; tempdir := tempdir w;
     tmp_names := tmp_names w; log := log w |}.
Definition set_heap (h : Heap) (w : World) : World :=
  {| fs := fs w; heap := h; tempdir := tempdir w;
     tmp_names := tmp_names w; log := log w |}.
Definition set_tmp_names (l : list string) (w : World) : World :=
  {| fs := fs w; heap := heap w; tempdir := tempdir w;
     tmp_names := l; log := log w |}.
Definition add_log (e : Event) (w : World) : World :=
  {| fs := fs w; heap := heap w; tempdir := tempdir w;
     tmp_names := tmp_names w; log := log w ++ [e] |}.

(** ** The monad: state and exceptions *)

Definition M (A : Type) : Type := World -> Result A * World.

Definition ret {A} (a : A) : M A := fun w => (Return a, w).
Definition bind {A B} (m : M A) (k : A -> M B) : M B :=
  fun w =>
    match m w with
    | (Return a, w') => k a w'
    | (Raise r, w') => (Raise r, w')
    end.

Notation "x <~ c ;; k" := (bind c (fun x => k))
  (at level 100, c at next level, right associativity).
Notation "c ;;; k" := (bind c (fun _ => k))
  (at level 100, right associativity).

Definition gets {A} (f : World -> A) : M A := fun w => (Return (f w), w).

(** [try: body finally: cleanup], the shape of a [with] block whose
    context manager does not swallow exceptions. *)
Definition finally {A} (body : M A) (cleanup : M unit) : M A :=
  fun w =>
    match body w with
    | (res, w') =>
        match cleanup w' with
        | (Return _, w'') => (res, w'')
        | (Raise r, w'') => (Raise r, w'')
        end
    end.

Definition is_dir (p : Path) : M bool :=
  gets (fun w => pathlib.is_dir (fs w) p).

Definition glob_star (p : Path) : M (list Path) :=
  gets (fun w => pathlib.glob_star (fs w) p).

(** The [OSError] that [mkdir(parents=True, exist_ok=True)] raises again
    when it fails on [p]. *)
Definition mkdir_error (f : FS) (p : Path) : exception :=
  if pathlib.mkdir_not_a_directory f p
  then NotADirectoryError (pathlib.as_posix p)
  else FileExistsError (pathlib.as_posix p).

(** [destination.mkdir(parents=True, exist_ok=True)] *)
Definition mkdir_parents_exist_ok (p : Path) : M unit :=
  fun w =>
    match pathlib.mkdir_parents_exist_ok (fs w) p with
    | Some fs' => (Return tt, add_log (MkDir p) (set_fs fs' w))
    | None => (Raise (raise_plain (mkdir_error (fs w) p)), w)
    end.

(** ** [tempfile] *)

Module tempfile.

(** The first drawn name that is free under [dir], and the names left. *)
Fixpoint first_free (f : FS) (dir : Path) (prefix : string)
    (names : list string) : option (Path * list string) :=
  match names with
  | [] => None
  | n :: rest =>
      let file := dir ++ [prefix +:+ n] in
      if pathlib.exists_ f file then first_free f dir prefix rest
      else Some (file, rest)
  end.

(** [tempfile.mkdtemp(prefix=prefix)]: creates a directory that did not
    exist; [FileExistsError] when no drawn name is free. *)
Definition mkdtemp (prefix : string) : M Path :=
  fun w =>
    match first_free (fs w) (tempdir w) prefix (tmp_names w) with
    | Some (file, rest) =>
        (Return file,
         add_log (MkDtemp file)
           (set_tmp_names rest (set_fs (<[file := Dir]> (fs w)) w)))
    | None =>
        (Raise (raise_plain
                  (FileExistsError "No usable temporary directory name found")),
         set_tmp_names [] w)
    end.

Definition rmtree (p : Path) : M unit :=
  fun w => (Return tt, add_log (RmTree p) (set_fs (pathlib.rmtree (fs w) p) w)).

End tempfile.

(** Modelled from the spec: [poetry.core.utils.helpers.temporary_directory]
    is not part of the sources at hand. The spec describes it as a scoped
    resource, removed when the scope exits whether or not the body
    succeeds: a fresh directory is made on entry and removed with its
    contents on exit. *)
Definition temporary_directory {A} (body : Path -> M A) : M A :=
  tmp_dir <~ tempfile.mkdtemp "tmp" ;;
  finally (body tmp_dir) (tempfile.rmtree tmp_dir).

(** ** [poetry.installation.chef] *)

Record Env := { python : Path }.

(** [Link(archive.as_uri())]: the link of a local file. *)
Inductive Link := file_link (p : Path).

Record ArtifactCache := { get_cache_directory_for_link : Link -> Path }.

(** Truth value of [bytes | None], and [a or b]. *)
Definition truthy (x : option bytes) : bool :=
  match x with
  | Some (_ :: _) => true
  | _ => false
  end.

Definition py_or (a b : option bytes) : option bytes :=
  if truthy a then a else b.

Module chef.

Record Chef := {
  _env : Env;
  _pool : RepositoryPool;
  _artifact_cache : ArtifactCache;
}.

Section methods.

(** The imported collaborators, left open:
    - [decode] of [poetry.utils._compat];
    - [extractall] of [poetry.utils.helpers], as its effect on the file
      system and its outcome;
    - the [with isolated_builder(...) as builder: builder.build(...)]
      block as a whole, [backend]: it may change files and the dicts of
      the store, and it returns the built path or raises.
    Also left open is [is_absolute], [Path.is_absolute]: a [Path] here
    holds the components of a path object, not whether it is anchored at
    the root, and only [as_uri] asks. *)
Variable decode : bytes -> string.
Variable extractall_fs : Path -> Path -> bool -> FS -> Result unit * FS.
Variable backend : BuildCall -> FS -> Heap -> Result Path * (FS * Heap).
Variable is_absolute : Path -> bool.

(** [Link(archive.as_uri())]; [as_uri] raises [ValueError] for a path
    that is not absolute. *)
Definition link_of_uri (archive : Path) : M Link :=
  fun w =>
    if is_absolute archive then (Return (file_link archive), w)
    else (Raise (raise_plain
                   (ValueError
                      "relative path can't be expressed as a file URI")),
          w).

Definition extractall (source_ dest : Path) (zip : bool) : M unit :=
  fun w =>
    match extractall_fs source_ dest zip (fs w) with
    | (res, fs') =>
        (res, add_log (ExtractAll source_ dest zip res) (set_fs fs' w))
    end.

(** The isolated build, entered in the world [w]. *)
Definition isolated_build (call : BuildCall) (destination : Path) : M Path :=
  fun w =>
    match backend call (fs w) (heap w) with
    | (res, (fs', heap')) =>
        (res,
         add_log (Build call (heap w !! config_settings call)
                    (pathlib.is_dir (fs w) destination) res)
           (set_heap heap' (set_fs fs' w)))
    end.

(** Lines 69 to 76: the parts of the error message. *)
Definition message_parts (str_e : string) (e_exception : inner_exception)
    : list string :=
  let message_parts := [str_e] in
  match e_exception with
  | CalledProcessError stderr stdout =>
      let text := py_or stderr stdout in
      match text with
      | Some text => message_parts ++ [decode text]
      | None => message_parts
      end
  | OtherInner str_inner => message_parts ++ [str_inner]
  end.

Definition _is_wheel (archive : Path) : bool :=
  String.eqb (pathlib.suffix archive) ".whl".

Definition _should_prepare (archive : Path) : M bool :=
  d <~ is_dir archive ;;
  ret (d || negb (_is_wheel archive)).

Definition _prepare (self : Chef) (directory destination : Path)
    (editable : bool) (config_settings : option loc) : M Path :=
  let config_settings :=
    default _prepare_default_config_settings config_settings in
  let distribution := if negb editable then "wheel" else "editable" in
  fun w =>
    match
      isolated_build
        {| source := directory;
           distribution := distribution;
           python_executable := python (_env self);
           pool := _pool self;
           output_directory := pathlib.as_posix destination;
           config_settings := config_settings |}
        destination w
    with
    | (Return built, w') => (Return built, w')
    | (Raise r, w') =>
        match exc r with
        | BuildBackendException str_e e_exception =>
            let error :=
              IsolatedBuildError
                (pystr.join pystr.blank_line (message_parts str_e e_exception)) in
            (Raise (raise_from_None error), w')
        | _ => (Raise r, w')
        end
    end.

Definition _prepare_sdist (self : Chef) (archive : Path)
    (destination : option Path) : M Path :=
  let suffix := pathlib.suffix archive in
  let zip := String.eqb suffix ".zip" in
  temporary_directory (fun tmp_dir =>
    let archive_dir := tmp_dir in
    extractall archive archive_dir zip ;;;
    elements <~ glob_star archive_dir ;;
    let named :=
      (let sdist_dir :=
         pathlib.joinpath archive_dir
           (pystr.rstrip suffix (pathlib.name archive)) in
       d <~ is_dir sdist_dir ;;
       if negb d then ret archive_dir else ret sdist_dir) in
    sdist_dir <~
      match elements with
      | [element] =>
          d <~ is_dir element ;;
          if d then ret element else named
      | _ => named
      end ;;
    destination <~
      match destination with
      | None =>
          link <~ link_of_uri archive ;;
          ret (get_cache_directory_for_link (_artifact_cache self) link)
      | Some destination => ret destination
      end ;;
    mkdir_parents_exist_ok destination ;;;
    _prepare self sdist_dir destination false None).

Definition prepare (self : Chef) (archive : Path) (output_dir : option Path)
    (editable : bool) (config_settings : option loc) : M Path :=
  let config_settings :=
    default prepare_default_config_settings config_settings in
  should <~ _should_prepare archive ;;
  if negb should then ret archive
  else
    d <~ is_dir archive ;;
    if d then
      (* [output_dir or Path(mkdtemp(...))]: a [Path] is always true *)
      destination <~
        match output_dir with
        | Some output_dir => ret output_dir
        | None => tempfile.mkdtemp "poetry-chef-"
        end ;;
      _prepare self archive destination editable (Some config_settings)
    else _prepare_sdist self archive output_dir.

End methods.

End chef.

Import chef (Chef).

(** ** What a run is compared with

    The steps of the methods written as functions of the world, the
    readings of the log, and the root-detection rule in the words of the
    specification. *)

(** What [_prepare] makes of the outcome of the isolated build. *)
Definition translate (decode : bytes -> string) (outcome : Result Path)
    : Result Path :=
  match outcome with
  | Return built => Return built
  | Raise r =>
      match exc r with
      | BuildBackendException str_e e_exception =>
          Raise (raise_from_None
                   (IsolatedBuildError
                      (pystr.join pystr.blank_line
                         (chef.message_parts decode str_e e_exception))))
      | _ => Raise r
      end
  end.

(** The call [_prepare] hands to the isolated builder. *)
Definition call_of (self : Chef) (directory destination : Path)
    (editable : bool) (config_settings : option loc) : BuildCall :=
  {| source := directory;
     distribution := if editable then "editable" else "wheel";
     python_executable := python (chef._env self);
     pool := chef._pool self;
     output_directory := pathlib.as_posix destination;
     config_settings :=
       default _prepare_default_config_settings config_settings |}.

(** The world after [tmp] and what it holds are removed. *)
Definition removed (tmp : Path) (w : World) : World :=
  add_log (RmTree tmp) (set_fs (pathlib.rmtree (fs w) tmp) w).

(** The world after [tempfile] has made the directory [tmp]. *)
Definition made_tmp (tmp : Path) (rest : list string) (w : World) : World :=
  add_log (MkDtemp tmp) (set_tmp_names rest (set_fs (<[tmp := Dir]> (fs w)) w)).

(** Lines 93 to 100 as a function of the file system after unpacking. *)
Definition project_root (f : FS) (archive archive_dir : Path) : Path :=
  let named :=
    let sdist_dir :=
      pathlib.joinpath archive_dir
        (pystr.rstrip (pathlib.suffix archive) (pathlib.name archive)) in
    if negb (pathlib.is_dir f sdist_dir) then archive_dir else sdist_dir in
  match pathlib.glob_star f archive_dir with
  | [element] => if pathlib.is_dir f element then element else named
  | _ => named
  end.

(** Lines 102 to 105. *)
Definition destination_of (self : Chef) (archive : Path)
    (destination : option Path) : Path :=
  match destination with
  | None =>
      get_cache_directory_for_link (chef._artifact_cache self)
        (file_link archive)
  | Some destination => destination
  end.

(** Line 104 fails: no destination is given and the archive's path is
    not absolute. *)
Definition uri_fails (is_absolute : Path -> bool) (archive : Path)
    (destination : option Path) : bool :=
  match destination with
  | None => negb (is_absolute archive)
  | Some _ => false
  end.

Definition relative_uri : raised :=
  raise_plain (ValueError "relative path can't be expressed as a file URI").

Definition no_free_name : raised :=
  raise_plain (FileExistsError "No usable temporary directory name found").


(** What the log says of the builds: their sources, and the settings the
    builder saw. *)
Definition build_calls (l : list Event) : list BuildCall :=
  omap (fun e => match e with Build call _ _ _ => Some call | _ => None end) l.

Definition settings_seen_by_builds (l : list Event)
    : list (option (gmap string string)) :=
  omap (fun e => match e with Build _ seen _ _ => Some seen | _ => None end) l.

(** The file name with its suffix removed ([Path.stem]). *)
Definition stem (p : Path) : string :=
  pystr.of_chars
    (take (String.length (pathlib.name p) - String.length (pathlib.suffix p))
       (pystr.chars (pathlib.name p))).

(** The root-detection rule in the words of the specification: one
    top-level entry that is a directory; else the directory named after
    the archive's file name with its suffix stripped; else the unpack
    directory. *)
Definition spec_project_root (f : FS) (archive archive_dir : Path) : Path :=
  match pathlib.glob_star f archive_dir with
  | [element] =>
      if pathlib.is_dir f element then element
      else if pathlib.is_dir f (pathlib.joinpath archive_dir (stem archive))
           then pathlib.joinpath archive_dir (stem archive)
           else archive_dir
  | _ =>
      if pathlib.is_dir f (pathlib.joinpath archive_dir (stem archive))
      then pathlib.joinpath archive_dir (stem archive)
      else archive_dir
  end.

(** ** Concrete collaborators and worlds, for the examples *)

Module scenario.

(** A decoder that reads every byte as one character (latin-1). *)
Definition latin1 (b : bytes) : string := string_of_list_byte b.

(** Every path of the examples is absolute. *)
Definition absolute (p : Path) : bool := true.

Definition the_chef : Chef :=
  {| chef._env := {| python := ["usr"; "bin"; "python3"] |};
     chef._pool := "pypi";
     chef._artifact_cache :=
       {| get_cache_directory_for_link :=
            fun l => match l with
                     | file_link p => ["cache"; "artifacts"; pathlib.name p]
                     end |} |}.

(** An archive whose top level holds [entries]. *)
Definition unpacks (entries : list (string * node))
    (source_ dest : Path) (zip : bool) (f : FS) : Result unit * FS :=
  (Return tt, foldr (fun e acc => <[dest ++ [e.1] := e.2]> acc) f entries).

Definition unpack_fails (source_ dest : Path) (zip : bool) (f : FS)
    : Result unit * FS :=
  (Raise (raise_plain (OtherException "ReadError" "not an archive")), f).

(** A builder that puts [wheel] into the destination it is given. *)
Definition builds (wheel : Path) (call : BuildCall) (f : FS) (h : Heap)
    : Result Path * (FS * Heap) :=
  (Return wheel, (<[wheel := File]> f, h)).

Definition build_raises (r : raised) (call : BuildCall) (f : FS) (h : Heap)
    : Result Path * (FS * Heap) :=
  (Raise r, (f, h)).

(** A backend that records a key in the settings dict it receives. *)
Definition builds_and_marks (wheel : Path) (call : BuildCall) (f : FS)
    (h : Heap) : Result Path * (FS * Heap) :=
  (Return wheel,
   (<[wheel := File]> f,
    alter (fun d => <["--seen" := "1"]> d) (config_settings call) h)).

(** [BuildBackendException] as [build] raises it: inside the handler of
    the inner exception, which becomes its context. *)
Definition backend_failure (description : string) (inner : inner_exception)
    : raised :=
  {| exc := BuildBackendException description inner;
     cause := None;
     context := Some (OtherException "CalledProcessError"
                        "Command returned non-zero exit status 1.");
     suppress_context := false |}.

Definition world (entries : list (Path * node)) : World :=
  {| fs := list_to_map entries;
     heap := {[ prepare_default_config_settings := ∅;
                _prepare_default_config_settings := ∅ ]};
     tempdir := ["tmp"];
     tmp_names := ["k3x9"; "q7wz"; "m2pd"];
     log := [] |}.

Definition stderr_text : bytes :=
  list_byte_of_string "ModuleNotFoundError: setuptools".

End scenario.

(** * Properties *)

(** ** Strings and suffixes *)

Module pystr_facts.
Import pystr.

Lemma of_chars_app (a b : list ascii) :
  of_chars (a ++ b) = of_chars a +:+ of_chars b.
Proof. induction a as [|c a IH]; simpl; [done | by rewrite IH]. Qed.

Lemma chars_app (a b : string) : chars (a +:+ b) = chars a ++ chars b.
Proof. induction a as [|c a IH]; simpl; [done | by rewrite IH]. Qed.

Lemma of_chars_chars (s : string) : of_chars (chars s) = s.
Proof. apply string_of_list_ascii_of_string. Qed.

Lemma chars_of_chars (l : list ascii) : chars (of_chars l) = l.
Proof. apply list_ascii_of_string_of_list_ascii. Qed.

Lemma length_chars (s : string) : length (chars s) = String.length s.
Proof. induction s as [|c s IH]; simpl; [done | by rewrite IH]. Qed.

Lemma rfind_from_absent c i l :
  existsb (Ascii.eqb c) l = false -> rfind_from c i l = None.
Proof.
  revert i; induction l as [|a l IH]; intros i H; simpl in *; [done|].
  apply orb_false_iff in H as [Ha Hl].
  rewrite (IH _ Hl). rewrite Ascii.eqb_sym in Ha. by rewrite Ha.
Qed.

(** The last occurrence: nothing after it is the needle. *)
Lemma rfind_from_last c i l1 l2 :
  existsb (Ascii.eqb c) l2 = false ->
  rfind_from c i (l1 ++ c :: l2) = Some (i + length l1).
Proof.
  intros H. revert i; induction l1 as [|a l1 IH]; intros i; simpl.
  - rewrite (rfind_from_absent _ _ _ H), Ascii.eqb_refl. f_equal; lia.
  - rewrite IH. f_equal; lia.
Qed.

Lemma prefix_refl (t : string) : String.prefix t t = true.
Proof.
  induction t as [|c t IH]; simpl; [done|].
  destruct (ascii_dec c c); [done | congruence].
Qed.

Lemma prefix_app (t u : string) : String.prefix t (t +:+ u) = true.
Proof.
  induction t as [|c t IH]; simpl; [by destruct u|].
  destruct (ascii_dec c c); [done | congruence].
Qed.

Lemma append_assoc (a b c : string) : (a +:+ b) +:+ c = a +:+ b +:+ c.
Proof.
  induction a as [|x a IH]; [done|].
  change (String x ((a +:+ b) +:+ c) = String x (a +:+ b +:+ c)).
  by rewrite IH.
Qed.

Lemma contains_prefix (t s : string) :
  String.prefix t s = true -> contains t s = true.
Proof. intros H. destruct s; cbn [contains]; rewrite H; done. Qed.

(** [t in (a + t + b)] *)
Lemma contains_middle (a t b : string) : contains t (a +:+ t +:+ b) = true.
Proof.
  induction a as [|c a IH].
  - change (contains t (t +:+ b) = true).
    apply contains_prefix, prefix_app.
  - change (contains t (String c (a +:+ t +:+ b)) = true).
    cbn [contains]. rewrite IH. apply orb_true_r.
Qed.

Lemma contains_end (a t : string) : contains t (a +:+ t) = true.
Proof.
  induction a as [|c a IH].
  - change (contains t t = true). apply contains_prefix, prefix_refl.
  - change (contains t (String c (a +:+ t)) = true).
    cbn [contains]. rewrite IH. apply orb_true_r.
Qed.

End pystr_facts.

Module pathlib_facts.
Import pystr pystr_facts.

(** A path has the suffix [".whl"] exactly when its name is a non-empty
    stem followed by [".whl"]. *)
Lemma suffix_whl_iff (p : Path) :
  pathlib.suffix p = ".whl" <->
  exists stem, stem <> "" /\ pathlib.name p = stem +:+ ".whl".
Proof.
  unfold pathlib.suffix. set (n := pathlib.name p). clearbody n. split.
  - destruct (rfind "." n) as [i|]; [|done].
    destruct (0 <? i)%nat eqn:H0; simpl; [|done].
    destruct (i <? String.length n - 1)%nat eqn:H1; [|done].
    apply Nat.ltb_lt in H0, H1. unfold slice_from. intros E.
    apply (f_equal chars) in E. rewrite chars_of_chars in E.
    exists (of_chars (take i (chars n))). split.
    + intros Hs. apply (f_equal chars) in Hs. rewrite chars_of_chars in Hs.
      apply (f_equal length) in Hs. rewrite length_take, length_chars in Hs.
      simpl in Hs. lia.
    + rewrite <- (of_chars_chars ".whl"), <- E, <- of_chars_app.
      by rewrite take_drop, of_chars_chars.
  - intros (stem & Hne & ->).
    unfold rfind. rewrite chars_app. simpl.
    rewrite (rfind_from_last "." 0 (chars stem)) by done. simpl.
    rewrite length_chars.
    assert (0 < String.length stem)%nat as Hlen
      by (destruct stem; [done | simpl; lia]).
    assert (String.length (stem +:+ ".whl") = String.length stem + 4)%nat
      as -> by (rewrite <- !length_chars, chars_app, length_app; done).
    destruct (0 <? String.length stem)%nat eqn:H0;
      [|apply Nat.ltb_ge in H0; lia].
    destruct (String.length stem <? String.length stem + 4 - 1)%nat eqn:H1;
      [|apply Nat.ltb_ge in H1; lia].
    simpl. unfold slice_from. rewrite chars_app, <- length_chars.
    by rewrite drop_app_length.
Qed.

End pathlib_facts.

(** ** How the methods run *)

Section runs.

Variable decode : bytes -> string.
Variable extractall_fs : Path -> Path -> bool -> FS -> Result unit * FS.
Variable backend : BuildCall -> FS -> Heap -> Result Path * (FS * Heap).
Variable is_absolute : Path -> bool.

Abbreviation prepare := (chef.prepare decode extractall_fs backend is_absolute).
Abbreviation _prepare := (chef._prepare decode backend).
Abbreviation _prepare_sdist :=
  (chef._prepare_sdist decode extractall_fs backend is_absolute).

Lemma _prepare_run self directory destination editable cs w :
  _prepare self directory destination editable cs w =
  let call := call_of self directory destination editable cs in
  let out := backend call (fs w) (heap w) in
  (translate decode out.1,
   add_log (Build call (heap w !! config_settings call)
              (pathlib.is_dir (fs w) destination) out.1)
     (set_heap out.2.2 (set_fs out.2.1 w))).
Proof.
  unfold chef._prepare, chef.isolated_build, call_of, translate. simpl.
  destruct editable; simpl;
    (destruct (backend _ _ _) as [[built|r] [f' h']]; simpl; [done|]);
    destruct (exc r); done.
Qed.

Lemma _should_prepare_run archive w :
  chef._should_prepare archive w =
  (Return (pathlib.is_dir (fs w) archive || negb (chef._is_wheel archive)), w).
Proof. reflexivity. Qed.

(** The three ways [prepare] goes. *)
Lemma prepare_wheel self archive output_dir editable cs w :
  pathlib.is_dir (fs w) archive = false ->
  chef._is_wheel archive = true ->
  prepare self archive output_dir editable cs w = (Return archive, w).
Proof.
  intros Hd Hw. unfold chef.prepare, bind.
  rewrite _should_prepare_run, Hd, Hw. reflexivity.
Qed.

Lemma prepare_directory self archive output_dir editable cs w :
  pathlib.is_dir (fs w) archive = true ->
  prepare self archive output_dir editable cs w =
  (destination <~
     match output_dir with
     | Some output_dir => ret output_dir
     | None => tempfile.mkdtemp "poetry-chef-"
     end ;;
   _prepare self archive destination editable
     (Some (default prepare_default_config_settings cs))) w.
Proof.
  intros Hd. unfold chef.prepare.
  unfold bind at 1. rewrite _should_prepare_run, Hd. simpl.
  unfold bind at 1. unfold is_dir, gets. rewrite Hd. reflexivity.
Qed.

Lemma prepare_archive self archive output_dir editable cs w :
  pathlib.is_dir (fs w) archive = false ->
  chef._is_wheel archive = false ->
  prepare self archive output_dir editable cs w =
  _prepare_sdist self archive output_dir w.
Proof.
  intros Hd Hw. unfold chef.prepare.
  unfold bind at 1. rewrite _should_prepare_run, Hd, Hw. simpl.
  unfold bind at 1. unfold is_dir, gets. rewrite Hd. reflexivity.
Qed.

End runs.

(** ** Wheels pass through, everything else is prepared *)

(** C1, as worded, does not hold: a file that is not a directory and whose
    name ends in [".whl"] need not come back unchanged. The file named just
    [".whl"] has an empty [suffix], so it is unpacked like a source
    archive. *)
Lemma prepare_dotfile_whl_is_unpacked :
  ~ (forall decode extractall_fs backend is_absolute self archive output_dir
       editable cs w,
       pathlib.is_dir (fs w) archive = false ->
       pystr.endswith ".whl" (pathlib.name archive) = true ->
       chef.prepare decode extractall_fs backend is_absolute self archive
         output_dir editable cs w
       = (Return archive, w)).
Proof.
  intros H.
  pose proof
    (H scenario.latin1 (scenario.unpacks [("pkg", Dir)])
       (scenario.builds ["out"; "pkg-1.0-py3-none-any.whl"])
       scenario.absolute scenario.the_chef ["srv"; ".whl"] (Some ["out"]) false
       None
       (scenario.world [(["srv"; ".whl"], File); (["out"], Dir)])
       eq_refl eq_refl) as E.
  apply (f_equal (fun x => length (log x.2))) in E.
  vm_compute in E. discriminate E.
Qed.

(** C1, amended: the test is [suffix == ".whl"]. A path that is not a
    directory and has the suffix [".whl"] (its name is a non-empty stem
    followed by [".whl"]) is returned as it is and the world is left as it
    was: nothing is built, unpacked or created. A directory is built where
    it stands, into the given destination or a fresh temporary one; any
    other path goes through [_prepare_sdist]. *)
Theorem prepare_wheel_passthrough
    decode extractall_fs backend is_absolute self archive output_dir
    editable cs w :
  (pathlib.is_dir (fs w) archive = false ->
   (exists stem, stem <> "" /\ pathlib.name archive = stem +:+ ".whl") ->
   chef.prepare decode extractall_fs backend is_absolute self archive
     output_dir editable cs w
   = (Return archive, w))
  /\
  (pathlib.is_dir (fs w) archive = true ->
   chef.prepare decode extractall_fs backend is_absolute self archive
     output_dir editable cs w
   = (destination <~
        match output_dir with
        | Some output_dir => ret output_dir
        | None => tempfile.mkdtemp "poetry-chef-"
        end ;;
      chef._prepare decode backend self archive destination editable
        (Some (default prepare_default_config_settings cs))) w)
  /\
  (pathlib.is_dir (fs w) archive = false ->
   pathlib.suffix archive <> ".whl" ->
   chef.prepare decode extractall_fs backend is_absolute self archive
     output_dir editable cs w
   = chef._prepare_sdist decode extractall_fs backend is_absolute self archive
       output_dir w).
Proof.
  split; [|split].
  - intros Hd Hs. apply prepare_wheel; [done|].
    apply pathlib_facts.suffix_whl_iff in Hs.
    unfold chef._is_wheel. by apply String.eqb_eq.
  - apply prepare_directory.
  - intros Hd Hs. apply prepare_archive; [done|].
    unfold chef._is_wheel. by apply String.eqb_neq.
Qed.

Lemma prepare_wheel_passthrough_witness :
  let w := scenario.world
             [(["srv"; "pkg-1.0-py3-none-any.whl"], File);
              (["srv"; "pkg-1.0.tar.gz"], File);
              (["src"; "pkg"], Dir)] in
  let run := chef.prepare scenario.latin1 (scenario.unpacks [("pkg-1.0", Dir)])
               (scenario.builds ["out"; "pkg-1.0-py3-none-any.whl"])
               scenario.absolute scenario.the_chef in
  run ["srv"; "pkg-1.0-py3-none-any.whl"] None false None w
  = (Return ["srv"; "pkg-1.0-py3-none-any.whl"], w)
  /\ log (run ["src"; "pkg"] (Some ["out"]) false None w).2 <> []
  /\ log (run ["srv"; "pkg-1.0.tar.gz"] (Some ["out"]) false None w).2 <> [].
Proof.
  intros w run. split; [|split].
  - apply (proj1 (prepare_wheel_passthrough _ _ _ _ _ _ _ _ _ _));
      [reflexivity|].
    exists "pkg-1.0-py3-none-any". split; [discriminate | reflexivity].
  - unfold run.
    rewrite (proj1 (proj2 (prepare_wheel_passthrough _ _ _ _ _ _ _ _ _ _)))
      by reflexivity.
    vm_compute. discriminate.
  - unfold run.
    rewrite (proj2 (proj2 (prepare_wheel_passthrough _ _ _ _ _ _ _ _ _ _)))
      by (reflexivity || (vm_compute; discriminate)).
    vm_compute. discriminate.
Defined.

(** ** The run of [_prepare_sdist], step by step *)

Section sdist_run.

Variable decode : bytes -> string.
Variable extractall_fs : Path -> Path -> bool -> FS -> Result unit * FS.
Variable backend : BuildCall -> FS -> Heap -> Result Path * (FS * Heap).
Variable is_absolute : Path -> bool.

Lemma mkdtemp_run prefix w :
  tempfile.mkdtemp prefix w =
  match tempfile.first_free (fs w) (tempdir w) prefix (tmp_names w) with
  | Some (file, rest) => (Return file, made_tmp file rest w)
  | None => (Raise no_free_name, set_tmp_names [] w)
  end.
Proof. unfold tempfile.mkdtemp. by destruct tempfile.first_free as [[? ?]|]. Qed.

Lemma _prepare_sdist_run self archive destination w :
  chef._prepare_sdist decode extractall_fs backend is_absolute self archive
    destination w =
  match tempfile.first_free (fs w) (tempdir w) "tmp" (tmp_names w) with
  | None => (Raise no_free_name, set_tmp_names [] w)
  | Some (tmp, rest) =>
      let w1 := made_tmp tmp rest w in
      let zip := String.eqb (pathlib.suffix archive) ".zip" in
      let x := extractall_fs archive tmp zip (fs w1) in
      let w2 := add_log (ExtractAll archive tmp zip x.1) (set_fs x.2 w1) in
      match x.1 with
      | Raise r => (Raise r, removed tmp w2)
      | Return _ =>
          let dest := destination_of self archive destination in
          if uri_fails is_absolute archive destination
          then (Raise relative_uri, removed tmp w2)
          else
          match pathlib.mkdir_parents_exist_ok (fs w2) dest with
          | None =>
              (Raise (raise_plain (mkdir_error (fs w2) dest)), removed tmp w2)
          | Some f3 =>
              let w3 := add_log (MkDir dest) (set_fs f3 w2) in
              let y :=
                chef._prepare decode backend self
                  (project_root (fs w2) archive tmp) dest false None w3 in
              (y.1, removed tmp y.2)
          end
      end
  end.
Proof.
  unfold chef._prepare_sdist, temporary_directory.
  unfold bind at 1. rewrite mkdtemp_run.
  destruct tempfile.first_free as [[tmp rest]|]; [|done].
  unfold finally, bind at 1, chef.extractall. simpl.
  destruct (extractall_fs _ _ _ _) as [[[]|r] f2]; simpl; [|done].
  unfold bind at 1, glob_star, gets. simpl.
  unfold project_root, destination_of, uri_fails, removed, made_tmp.
  unfold bind, is_dir, gets, ret, mkdir_parents_exist_ok, chef.link_of_uri.
  destruct destination as [destination|]; simpl;
    [|destruct (is_absolute archive); simpl].
  all: repeat
    match goal with
    | |- context [match pathlib.glob_star ?f ?p with _ => _ end] =>
        destruct (pathlib.glob_star f p) as [|? [|? ?]]; simpl
    | |- context [pathlib.is_dir ?f ?p] =>
        destruct (pathlib.is_dir f p); simpl
    | |- context [pathlib.mkdir_parents_exist_ok ?f ?p] =>
        destruct (pathlib.mkdir_parents_exist_ok f p); simpl
    | |- context [chef._prepare ?a ?b ?c ?d ?e ?f ?g ?h] =>
        destruct (chef._prepare a b c d e f g h) as [[?|?] ?]; simpl
    end; done.
Qed.

End sdist_run.

(** ** Case analysis of a run of [prepare] *)

Lemma app_delta {A} (l d1 d2 : list A) : l ++ d1 = l ++ d2 -> d1 = d2.
Proof. apply app_inv_head. Qed.

Lemma app_delta_nil {A} (l d : list A) : l = l ++ d -> [] = d.
Proof. intros H. apply (app_inv_head l). by rewrite app_nil_r. Qed.

(** Splits a run of [prepare] along the branches of the code: wheel,
    directory (destination given, temporary one made, no name free) and
    archive (no name free, unpacking fails, the archive has no URI,
    destination cannot be made, build entered). *)
Ltac prepare_cases decode extractall_fs backend is_absolute self archive output_dir
    editable cs w :=
  let Hd := fresh "Hdir" in
  let Hw := fresh "Hwheel" in
  destruct (pathlib.is_dir (fs w) archive) eqn:Hd;
  [ rewrite (prepare_directory decode extractall_fs backend is_absolute self archive
               output_dir editable cs w Hd);
    unfold bind at 1;
    destruct output_dir as [output_dir|];
    [ unfold ret at 1
    | rewrite mkdtemp_run;
      destruct (tempfile.first_free (fs w) (tempdir w) "poetry-chef-"
                  (tmp_names w)) as [[? ?]|] eqn:? ];
    rewrite ?_prepare_run
  | destruct (chef._is_wheel archive) eqn:Hw;
    [ rewrite (prepare_wheel decode extractall_fs backend is_absolute self archive
                 output_dir editable cs w Hd Hw)
    | rewrite (prepare_archive decode extractall_fs backend is_absolute self archive
                 output_dir editable cs w Hd Hw), _prepare_sdist_run;
      destruct (tempfile.first_free (fs w) (tempdir w) "tmp" (tmp_names w))
        as [[? ?]|] eqn:?;
      [ cbv zeta;
        match goal with
        | |- context [extractall_fs ?a ?b ?c ?d] =>
            destruct (extractall_fs a b c d) as [[[]|?] ?] eqn:?
        end;
        cbn [fst snd];
        [ destruct (uri_fails is_absolute archive output_dir) eqn:?;
          [ |
            match goal with
            | |- context [pathlib.mkdir_parents_exist_ok ?f ?p] =>
                destruct (pathlib.mkdir_parents_exist_ok f p) eqn:?
            end;
            rewrite ?_prepare_run ]
        | ]
      | ] ] ].

(** Brings [log w' = log w ++ delta] to [delta = ...]. *)
Ltac solve_delta H :=
  cbn [log add_log set_fs set_heap set_tmp_names removed made_tmp fst snd] in H;
  rewrite <- ?app_assoc in H;
  first [apply app_delta in H | apply app_delta_nil in H];
  cbn [app] in H.

(** Splits on what the isolated build came back with. *)
Ltac outcome_cases backend :=
  cbv zeta; cbn [fst snd];
  try match goal with
      | |- context [backend ?c ?f ?h] =>
          let E := fresh "Hbackend" in
          destruct (backend c f h) as [[?|?] [? ?]] eqn:E;
          cbn [fst snd translate]
      end.

(** Membership in a list that is written out. *)
Ltac in_list := cbn [In]; solve [repeat first [left; reflexivity | right]].

(** ** Backend failures are translated, nothing else is touched *)




(** ** The message of the translated error *)

(** The outcome of [prepare] is the outcome of the isolated build it
    entered, translated. *)
Lemma prepare_build_outcome
    decode extractall_fs backend is_absolute self archive output_dir
    editable cs w res w' delta call seen d outcome :
  chef.prepare decode extractall_fs backend is_absolute self archive
    output_dir editable cs w = (res, w') ->
  log w' = log w ++ delta ->
  In (Build call seen d outcome) delta ->
  res = translate decode outcome.
Proof.
  intros Hrun Hlog. revert Hrun.
  prepare_cases decode extractall_fs backend is_absolute self archive
    output_dir editable cs w; cbv zeta; cbn [fst snd]; intros Hrun; simplify_eq;
    solve_delta Hlog; subst delta; cbn [In]; intros Hin;
    destruct_or?; by simplify_eq.
Qed.

Lemma join_two sep a b : pystr.join sep [a; b] = a +:+ sep +:+ b.
Proof. reflexivity. Qed.

(** C5, as worded, does not hold for every backend failure: when the
    failed process captured nothing, the message is the description alone,
    with no blank line and no second part. *)
Lemma prepare_message_without_second_part :
  ~ (forall decode extractall_fs backend is_absolute self archive output_dir
       editable cs w res w' delta call seen d r0 str_e e_exception,
       chef.prepare decode extractall_fs backend is_absolute self archive
         output_dir editable cs w = (res, w') ->
       log w' = log w ++ delta ->
       In (Build call seen d (Raise r0)) delta ->
       exc r0 = BuildBackendException str_e e_exception ->
       exists r second,
         res = Raise r
         /\ exc r = IsolatedBuildError (str_e +:+ pystr.blank_line +:+ second)).
Proof.
  intros H.
  set (r0 := scenario.backend_failure "Backend operation failed"
               (CalledProcessError None None)).
  set (w := scenario.world [(["src"; "pkg"], Dir); (["out"], Dir)]).
  set (run := chef.prepare scenario.latin1 scenario.unpack_fails
                (scenario.build_raises r0)
                scenario.absolute scenario.the_chef ["src"; "pkg"]
                (Some ["out"]) false None w).
  destruct (H scenario.latin1 scenario.unpack_fails (scenario.build_raises r0)
              scenario.absolute scenario.the_chef ["src"; "pkg"] (Some ["out"])
              false None w
              run.1 run.2 (log run.2)
              (call_of scenario.the_chef ["src"; "pkg"] ["out"] false
                 (Some prepare_default_config_settings))
              (Some ∅) true r0 "Backend operation failed"
              (CalledProcessError None None))
    as (r & second & Hr & Hmsg).
  - apply surjective_pairing.
  - reflexivity.
  - vm_compute. left. reflexivity.
  - reflexivity.
  - vm_compute in Hr. injection Hr as <-. vm_compute in Hmsg.
    discriminate Hmsg.
Qed.

(** C5, amended: the message begins with the backend exception's own
    description. If the inner cause is a process exit failure, the text is
    its standard error when that is present and not empty, else its
    standard output; when there is such a text, it is decoded and follows
    the description after a blank line; when there is none (both streams
    are [None], or standard error is empty and standard output is [None]),
    the message is the description alone. If the inner cause is any other
    exception, its string form follows after a blank line. In particular
    a captured, non-empty standard error occurs, decoded, in the message. *)
Theorem prepare_error_message
    decode extractall_fs backend is_absolute self archive output_dir
    editable cs w res w' delta call seen d r0 str_e e_exception :
  chef.prepare decode extractall_fs backend is_absolute self archive
    output_dir editable cs w = (res, w') ->
  log w' = log w ++ delta ->
  In (Build call seen d (Raise r0)) delta ->
  exc r0 = BuildBackendException str_e e_exception ->
  exists message,
    res = Raise (raise_from_None (IsolatedBuildError message))
    /\ String.prefix str_e message = true
    /\ match e_exception with
       | CalledProcessError (Some (b :: err)) _ =>
           message = str_e +:+ pystr.blank_line +:+ decode (b :: err)
           /\ pystr.contains (decode (b :: err)) message = true
       | CalledProcessError _ (Some out) =>
           message = str_e +:+ pystr.blank_line +:+ decode out
       | CalledProcessError _ None =>
           message = str_e
       | OtherInner str_inner =>
           message = str_e +:+ pystr.blank_line +:+ str_inner
       end.
Proof.
  intros Hrun Hlog Hin Hexc.
  rewrite (prepare_build_outcome _ _ _ _ _ _ _ _ _ _ _ _ _ _ _ _ _
             Hrun Hlog Hin).
  cbn [translate]. rewrite Hexc. eexists. split; [reflexivity|].
  destruct e_exception as [[[|b err]|] [out|]|str_inner];
    cbn [chef.message_parts py_or truthy app]; rewrite ?join_two;
    (split; [first [apply pystr_facts.prefix_app
                   | apply pystr_facts.prefix_refl]|]);
    try done.
  all: split; [done|].
  all: rewrite <- pystr_facts.append_assoc; apply pystr_facts.contains_end.
Qed.

Lemma prepare_error_message_witness :
  let r0 :=
    scenario.backend_failure "Backend operation failed"
      (CalledProcessError (Some scenario.stderr_text) None) in
  let w := scenario.world [(["src"; "pkg"], Dir); (["out"], Dir)] in
  let run :=
    chef.prepare scenario.latin1 scenario.unpack_fails
      (scenario.build_raises r0)
      scenario.absolute scenario.the_chef ["src"; "pkg"]
      (Some ["out"]) false None w in
  exists message,
    run.1 = Raise (raise_from_None (IsolatedBuildError message))
    /\ message = "Backend operation failed" +:+ pystr.blank_line
                 +:+ "ModuleNotFoundError: setuptools"
    /\ pystr.contains "ModuleNotFoundError: setuptools" message = true.
Proof.
  intros r0 w run.
  destruct
    (prepare_error_message scenario.latin1 scenario.unpack_fails
       (scenario.build_raises r0)
       scenario.absolute scenario.the_chef ["src"; "pkg"]
       (Some ["out"]) false None w run.1 run.2 (log run.2)
       (call_of scenario.the_chef ["src"; "pkg"] ["out"] false
          (Some prepare_default_config_settings))
       (Some ∅) true r0 "Backend operation failed"
       (CalledProcessError (Some scenario.stderr_text) None)
       (surjective_pairing _) eq_refl (or_introl eq_refl) eq_refl)
    as (message & Hres & _ & Hmsg & Hin).
  exists message. split; [exact Hres|]. split; [exact Hmsg | exact Hin].
Defined.

(** ** A process failure that captured nothing *)

(** C10: when the inner cause is a process exit failure whose standard
    error and standard output are both [None], the message of the error
    raised by [prepare] is the backend exception's description and nothing
    more: no separator, no second part. *)
Theorem prepare_process_failure_without_output
    decode extractall_fs backend is_absolute self archive output_dir
    editable cs w res w' delta call seen d r0 str_e :
  chef.prepare decode extractall_fs backend is_absolute self archive
    output_dir editable cs w = (res, w') ->
  log w' = log w ++ delta ->
  In (Build call seen d (Raise r0)) delta ->
  exc r0 = BuildBackendException str_e (CalledProcessError None None) ->
  res = Raise (raise_from_None (IsolatedBuildError str_e)).
Proof.
  intros Hrun Hlog Hin Hexc.
  rewrite (prepare_build_outcome _ _ _ _ _ _ _ _ _ _ _ _ _ _ _ _ _
             Hrun Hlog Hin).
  cbn [translate]. by rewrite Hexc.
Qed.

Lemma prepare_process_failure_without_output_witness :
  let r0 :=
    scenario.backend_failure "Backend operation failed"
      (CalledProcessError None None) in
  let w := scenario.world [(["srv"; "pkg-1.0.tar.gz"], File)] in
  let run :=
    chef.prepare scenario.latin1 (scenario.unpacks [("pkg-1.0", Dir)])
      (scenario.build_raises r0)
      scenario.absolute scenario.the_chef ["srv"; "pkg-1.0.tar.gz"]
      None false None w in
  run.1 = Raise (raise_from_None (IsolatedBuildError "Backend operation failed")).
Proof.
  intros r0 w run.
  apply (prepare_process_failure_without_output scenario.latin1
           (scenario.unpacks [("pkg-1.0", Dir)]) (scenario.build_raises r0)
           scenario.absolute scenario.the_chef ["srv"; "pkg-1.0.tar.gz"] None
           false None w
           run.1 run.2 (log run.2)
           (call_of scenario.the_chef ["tmp"; "tmpk3x9"; "pkg-1.0"]
              ["cache"; "artifacts"; "pkg-1.0.tar.gz"] false None)
           (Some ∅) true r0).
  - apply surjective_pairing.
  - reflexivity.
  - vm_compute. do 3 right. left. reflexivity.
  - reflexivity.
Defined.

(** ** The project root inside an unpacked archive *)

(** The code follows the rule whenever [rstrip] happens to remove just the
    suffix, that is when the stem does not end in a character of the
    suffix. *)
Lemma project_root_agrees (f : FS) (archive archive_dir : Path) :
  pystr.rstrip (pathlib.suffix archive) (pathlib.name archive) = stem archive ->
  project_root f archive archive_dir = spec_project_root f archive archive_dir.
Proof.
  intros E. unfold project_root, spec_project_root. rewrite E.
  destruct (pathlib.glob_star f archive_dir) as [|element [|? ?]];
    repeat match goal with
           | |- context [pathlib.is_dir ?g ?p] => destruct (pathlib.is_dir g p)
           end; done.
Qed.

(** C3 at [app.zip], an archive with the top-level entries [app/] and
    [README]: the rule names [app/] as the project root, the code looks for
    a directory [a] (the name with every trailing [.], [z], [i], [p]
    removed), finds none and builds the unpack directory itself. *)
Theorem app_zip_root_is_missed :
  let w := scenario.world [(["srv"; "app.zip"], File)] in
  let unpack := scenario.unpacks [("app", Dir); ("README", File)] in
  let run :=
    chef.prepare scenario.latin1 unpack
      (scenario.builds ["cache"; "artifacts"; "app.zip"; "app-1.0-py3-none-any.whl"])
      scenario.absolute scenario.the_chef ["srv"; "app.zip"] None false None w
      in
  let tmp := ["tmp"; "tmpk3x9"] in
  let unpacked := (unpack ["srv"; "app.zip"] tmp true (<[tmp := Dir]> (fs w))).2 in
  pathlib.suffix ["srv"; "app.zip"] = ".zip"
  /\ stem ["srv"; "app.zip"] = "app"
  /\ pystr.rstrip ".zip" "app.zip" = "a"
  /\ spec_project_root unpacked ["srv"; "app.zip"] tmp = ["tmp"; "tmpk3x9"; "app"]
  /\ project_root unpacked ["srv"; "app.zip"] tmp = ["tmp"; "tmpk3x9"]
  /\ List.map source (build_calls (log run.2)) = [["tmp"; "tmpk3x9"]].
Proof. vm_compute. repeat split. Qed.

(** Where the stem does not end in a character of the suffix the named
    directory is found: [pkg-1.0.tar.gz] with the top-level entries
    [pkg-1.0.tar/] and [PKG-INFO]. *)
Example pkg_tar_gz_root_is_found :
  let w := scenario.world [(["srv"; "pkg-1.0.tar.gz"], File)] in
  let run :=
    chef.prepare scenario.latin1
      (scenario.unpacks [("pkg-1.0.tar", Dir); ("PKG-INFO", File)])
      (scenario.builds ["out"; "pkg-1.0-py3-none-any.whl"])
      scenario.absolute scenario.the_chef ["srv"; "pkg-1.0.tar.gz"]
      (Some ["out"]) false None w in
  List.map source (build_calls (log run.2)) = [["tmp"; "tmpk3x9"; "pkg-1.0.tar"]].
Proof. vm_compute. reflexivity. Qed.

(** ** The settings the builder receives *)

(** For a directory the caller's dict itself is handed on, with the content
    it has at the call. *)
Lemma prepare_directory_forwards_settings
    decode extractall_fs backend is_absolute self archive output_dir
    editable cs w res w' delta call seen d outcome :
  pathlib.is_dir (fs w) archive = true ->
  chef.prepare decode extractall_fs backend is_absolute self archive
    output_dir editable cs w = (res, w') ->
  log w' = log w ++ delta ->
  In (Build call seen d outcome) delta ->
  config_settings call = default prepare_default_config_settings cs
  /\ seen = heap w !! default prepare_default_config_settings cs.
Proof.
  intros Hd Hrun Hlog. revert Hrun.
  prepare_cases decode extractall_fs backend is_absolute self archive
    output_dir editable cs w; try congruence; cbv zeta; cbn [fst snd]; intros Hrun;
    simplify_eq; solve_delta Hlog; subst delta; cbn [In]; intros Hin;
    destruct_or?; by simplify_eq.
Qed.

(** For an archive the dict handed on is always the default of [_prepare],
    whatever the caller passed. *)
Lemma prepare_archive_drops_settings
    decode extractall_fs backend is_absolute self archive output_dir
    editable cs w res w' delta call seen d outcome :
  pathlib.is_dir (fs w) archive = false ->
  chef.prepare decode extractall_fs backend is_absolute self archive
    output_dir editable cs w = (res, w') ->
  log w' = log w ++ delta ->
  In (Build call seen d outcome) delta ->
  config_settings call = _prepare_default_config_settings
  /\ distribution call = "wheel".
Proof.
  intros Hd Hrun Hlog. revert Hrun.
  prepare_cases decode extractall_fs backend is_absolute self archive
    output_dir editable cs w; try congruence; cbv zeta; cbn [fst snd]; intros Hrun;
    simplify_eq; solve_delta Hlog; subst delta; cbn [In]; intros Hin;
    destruct_or?; by simplify_eq.
Qed.

(** C4 at a source archive: the caller passes the dict at [7], holding
    [--build-option]; the builder is handed the dict at
    [_prepare_default_config_settings] and sees it empty. *)
Theorem sdist_settings_are_not_forwarded :
  let w0 := scenario.world [(["srv"; "pkg-1.0.tar.gz"], File)] in
  let w := set_heap (<[7 := {["--build-option" := "--plat-name=x"]}]> (heap w0)) w0 in
  let run :=
    chef.prepare scenario.latin1 (scenario.unpacks [("pkg-1.0.tar", Dir)])
      (scenario.builds ["out"; "pkg-1.0-py3-none-any.whl"])
      scenario.absolute scenario.the_chef ["srv"; "pkg-1.0.tar.gz"]
      (Some ["out"]) false
      (Some 7) w in
  heap w !! 7 = Some {["--build-option" := "--plat-name=x"]}
  /\ List.map config_settings (build_calls (log run.2))
     = [_prepare_default_config_settings]
  /\ settings_seen_by_builds (log run.2) = [Some ∅].
Proof. vm_compute. repeat split. Qed.

(** The same call on a directory hands the caller's dict on. *)
Example directory_settings_are_forwarded :
  let w0 := scenario.world [(["src"; "pkg"], Dir)] in
  let w := set_heap (<[7 := {["--build-option" := "--plat-name=x"]}]> (heap w0)) w0 in
  let run :=
    chef.prepare scenario.latin1 scenario.unpack_fails
      (scenario.builds ["out"; "pkg-1.0-py3-none-any.whl"])
      scenario.absolute scenario.the_chef ["src"; "pkg"] (Some ["out"]) false
      (Some 7) w in
  List.map config_settings (build_calls (log run.2)) = [7]
  /\ settings_seen_by_builds (log run.2)
     = [Some {["--build-option" := "--plat-name=x"]}].
Proof. vm_compute. repeat split. Qed.

(** ** The default settings dict *)

(** C9 on two calls without settings, with a backend that records a key in
    the dict it is given: the first call's builder sees the empty dict, the
    second call's builder sees the key the first one left. Both calls were
    handed the one dict made when [prepare] was defined. *)
Theorem default_settings_are_shared :
  let w := scenario.world [(["src"; "pkg"], Dir)] in
  let prepare :=
    chef.prepare scenario.latin1 scenario.unpack_fails
      (scenario.builds_and_marks ["out"; "pkg-1.0-py3-none-any.whl"])
      scenario.absolute scenario.the_chef ["src"; "pkg"] (Some ["out"]) false
      None in
  let first := prepare w in
  let second := prepare first.2 in
  settings_seen_by_builds (log first.2) = [Some ∅]
  /\ settings_seen_by_builds (log second.2)
     = [Some ∅; Some {["--seen" := "1"]}]
  /\ List.map config_settings (build_calls (log second.2))
     = [prepare_default_config_settings; prepare_default_config_settings].
Proof. vm_compute. repeat split. Qed.

(** Whatever the collaborators do, a call without settings hands the
    builder one of the two dicts made at definition time. *)
Lemma prepare_without_settings_uses_a_default
    decode extractall_fs backend is_absolute self archive output_dir editable
    w res w' delta call seen d outcome :
  chef.prepare decode extractall_fs backend is_absolute self archive output_dir
    editable None w = (res, w') ->
  log w' = log w ++ delta ->
  In (Build call seen d outcome) delta ->
  config_settings call =
    if pathlib.is_dir (fs w) archive then prepare_default_config_settings
    else _prepare_default_config_settings.
Proof.
  intros Hrun Hlog. revert Hrun.
  prepare_cases decode extractall_fs backend is_absolute self archive output_dir
    editable (@None loc) w; cbv zeta; cbn [fst snd]; intros Hrun;
    simplify_eq; solve_delta Hlog; subst delta; cbn [In]; intros Hin;
    destruct_or?; by simplify_eq.
Qed.

(** ** Building a directory *)

Lemma first_free_is_free f dir prefix names file rest :
  tempfile.first_free f dir prefix names = Some (file, rest) ->
  pathlib.exists_ f file = false
  /\ exists n, In n names /\ file = dir ++ [prefix +:+ n].
Proof.
  induction names as [|n names IH]; simpl; [done|].
  destruct (pathlib.exists_ f (dir ++ [prefix +:+ n])) eqn:E.
  - intros H. destruct (IH H) as (? & m & ? & ?). eauto 6.
  - intros [= <- <-]. eauto 6.
Qed.

Lemma is_dir_insert_Dir (f : FS) (p : Path) :
  pathlib.is_dir (<[p := Dir]> f) p = true.
Proof.
  destruct p as [|c p]; [done|]. unfold pathlib.is_dir.
  apply bool_decide_eq_true. apply lookup_insert_eq.
Qed.

(** C6: for a directory, every build [prepare] enters is of that directory
    and of kind ["editable"] exactly when the editable flag is set, of kind
    ["wheel"] otherwise. With a destination given, the build is entered
    with it. With none, [tempfile.mkdtemp] makes a directory that did not
    exist before, named [poetry-chef-...] in the temporary directory, and
    the build is entered with it, and it is a directory at that moment;
    only when [tempfile] finds no free name does it raise instead, before
    any build. *)
Theorem prepare_directory_build
    decode extractall_fs backend is_absolute self archive output_dir
    editable cs w res w' delta :
  pathlib.is_dir (fs w) archive = true ->
  chef.prepare decode extractall_fs backend is_absolute self archive
    output_dir editable cs w = (res, w') ->
  log w' = log w ++ delta ->
  (forall call seen d outcome,
     In (Build call seen d outcome) delta ->
     source call = archive
     /\ (distribution call = "editable" <-> editable = true)
     /\ (distribution call = "wheel" <-> editable = false))
  /\ match output_dir with
     | Some destination =>
         exists call seen d outcome,
           delta = [Build call seen d outcome]
           /\ output_directory call = pathlib.as_posix destination
     | None =>
         match tempfile.first_free (fs w) (tempdir w) "poetry-chef-"
                 (tmp_names w) with
         | Some (tmp, _) =>
             pathlib.exists_ (fs w) tmp = false
             /\ (exists n, tmp = tempdir w ++ ["poetry-chef-" +:+ n])
             /\ exists call seen outcome,
                  delta = [MkDtemp tmp; Build call seen true outcome]
                  /\ output_directory call = pathlib.as_posix tmp
         | None => res = Raise no_free_name /\ delta = []
         end
     end.
Proof.
  intros Hd Hrun Hlog. revert Hrun.
  prepare_cases decode extractall_fs backend is_absolute self archive
    output_dir editable cs w; try congruence; cbv zeta; cbn [fst snd]; intros Hrun;
    simplify_eq; solve_delta Hlog; subst delta.
  - split.
    + cbn [In]. intros call seen d outcome Hin.
      destruct_or?; simplify_eq; try done.
      destruct editable; cbn; by repeat split.
    + by do 4 eexists.
  - match goal with
    | H : tempfile.first_free _ _ _ _ = Some _ |- _ =>
        apply first_free_is_free in H as (Hfree & n & _ & ->)
    end.
    split.
    + cbn [In]. intros call seen d outcome Hin.
      destruct_or?; simplify_eq; try done.
      destruct editable; cbn; by repeat split.
    + split; [done|]. split; [by eexists|].
      do 3 eexists.
      split;
        [ cbn [fs made_tmp add_log set_tmp_names set_fs];
          rewrite is_dir_insert_Dir; reflexivity
        | reflexivity ].
  - split; [|done]. cbn [In]. tauto.
Qed.

Lemma prepare_directory_build_witness :
  let w := scenario.world [(["src"; "pkg"], Dir); (["tmp"; "poetry-chef-k3x9"], Dir)] in
  let run :=
    chef.prepare scenario.latin1 scenario.unpack_fails
      (scenario.builds ["tmp"; "poetry-chef-q7wz"; "pkg-1.0-py3-none-any.whl"])
      scenario.absolute scenario.the_chef ["src"; "pkg"] None true None w in
  pathlib.is_dir (fs w) ["src"; "pkg"] = true
  /\ (forall call seen d outcome,
        In (Build call seen d outcome) (log run.2) ->
        source call = ["src"; "pkg"]
        /\ (distribution call = "editable" <-> true = true)
        /\ (distribution call = "wheel" <-> true = false))
  /\ pathlib.exists_ (fs w) ["tmp"; "poetry-chef-q7wz"] = false
  /\ (exists n, ["tmp"; "poetry-chef-q7wz"] = ["tmp"] ++ ["poetry-chef-" +:+ n])
  /\ exists call seen outcome,
       log run.2
       = [MkDtemp ["tmp"; "poetry-chef-q7wz"]; Build call seen true outcome]
       /\ output_directory call = "/tmp/poetry-chef-q7wz".
Proof.
  intros w run. split; [reflexivity|].
  exact (prepare_directory_build scenario.latin1 scenario.unpack_fails
           (scenario.builds ["tmp"; "poetry-chef-q7wz"; "pkg-1.0-py3-none-any.whl"])
           scenario.absolute scenario.the_chef ["src"; "pkg"] None true None w
           run.1 run.2
           (log run.2) eq_refl (surjective_pairing _) eq_refl).
Defined.

(** The scenario of the specification: a directory, not editable, no
    destination. *)
Example directory_scenario :
  let w := scenario.world [(["src"; "mypkg"], Dir); (["src"; "mypkg"; "pyproject.toml"], File)] in
  let run :=
    chef.prepare scenario.latin1 scenario.unpack_fails
      (scenario.builds ["tmp"; "poetry-chef-k3x9"; "mypkg-1.0-py3-none-any.whl"])
      scenario.absolute scenario.the_chef ["src"; "mypkg"] None false None w in
  run.1 = Return ["tmp"; "poetry-chef-k3x9"; "mypkg-1.0-py3-none-any.whl"]
  /\ List.map distribution (build_calls (log run.2)) = ["wheel"]
  /\ List.map output_directory (build_calls (log run.2)) = ["/tmp/poetry-chef-k3x9"].
Proof. vm_compute. repeat split. Qed.

(** ** The unpack directory is a scoped resource *)

Lemma rmtree_removes (f : FS) (tmp q : Path) :
  tmp `prefix_of` q -> pathlib.rmtree f tmp !! q = None.
Proof.
  intros Hq. unfold pathlib.rmtree. apply map_lookup_filter_None.
  right. intros x _ Hn. by apply Hn.
Qed.

(** Removal touches nothing outside [tmp]: the destination and the built
    wheel stay. *)
Lemma rmtree_keeps (f : FS) (tmp q : Path) :
  ~ tmp `prefix_of` q -> pathlib.rmtree f tmp !! q = f !! q.
Proof.
  intros Hq. unfold pathlib.rmtree.
  destruct (f !! q) as [x|] eqn:E.
  - apply map_lookup_filter_Some. done.
  - apply map_lookup_filter_None. by left.
Qed.

(** C7: a non-wheel archive is unpacked into a directory that [tempfile]
    makes for the call and that did not exist before. However the call
    ends (the build returns, the backend fails and the failure is
    translated, unpacking or anything else raises), the last thing done is
    the removal of that directory, and afterwards neither it nor anything
    below it exists. *)
Theorem unpack_directory_is_removed
    decode extractall_fs backend is_absolute self archive output_dir
    editable cs w res w' delta :
  pathlib.is_dir (fs w) archive = false ->
  pathlib.suffix archive <> ".whl" ->
  chef.prepare decode extractall_fs backend is_absolute self archive
    output_dir editable cs w = (res, w') ->
  log w' = log w ++ delta ->
  (forall source_ dest zip outcome,
     In (ExtractAll source_ dest zip outcome) delta ->
     source_ = archive /\ In (MkDtemp dest) delta)
  /\ (forall call seen d outcome,
        In (Build call seen d outcome) delta -> exists tmp, In (MkDtemp tmp) delta)
  /\ (forall tmp,
        In (MkDtemp tmp) delta ->
        pathlib.exists_ (fs w) tmp = false
        /\ List.last delta (MkDtemp tmp) = RmTree tmp
        /\ (forall q, tmp `prefix_of` q -> fs w' !! q = None)
        /\ pathlib.exists_ (fs w') tmp = false).
Proof.
  intros Hd Hs Hrun Hlog. revert Hrun.
  assert (chef._is_wheel archive = false) as Hw
    by (unfold chef._is_wheel; by apply String.eqb_neq).
  prepare_cases decode extractall_fs backend is_absolute self archive
    output_dir editable cs w; try congruence; cbv zeta; cbn [fst snd]; intros Hrun;
    simplify_eq; solve_delta Hlog; subst delta.
  all: try match goal with
       | H : tempfile.first_free _ _ _ _ = Some _ |- _ =>
           apply first_free_is_free in H as (Hfree & n & _ & ->)
       end.
  all: split; [|split];
    [ intros source_ dest zip outcome Hin
    | intros call seen d outcome Hin
    | intros tmp' Hin ];
    cbn [In] in Hin; destruct_or?; simplify_eq; try done.
  all: try (split; [done | in_list]).
  all: try (eexists; in_list).
  all: split; [done|]; split; [reflexivity|].
  all: cbn [fs removed add_log set_fs set_heap].
  all: assert (forall (f : FS) q,
                 (tempdir w ++ ["tmp" +:+ n]) `prefix_of` q ->
                 pathlib.rmtree f (tempdir w ++ ["tmp" +:+ n]) !! q = None)
         as Hgone by (intros; by apply rmtree_removes).
  all: split; [intros q Hq; by apply Hgone|].
  all: unfold pathlib.exists_;
    destruct (tempdir w ++ ["tmp" +:+ n]) as [|c p] eqn:Hp;
    [ by destruct (tempdir w) | ].
  all: apply bool_decide_eq_false; rewrite Hgone by done;
    by intros [? ?].
Qed.

Lemma unpack_directory_is_removed_witness :
  let archive := ["srv"; "mypkg-1.0.tar.gz"] in
  let w := scenario.world [(archive, File)] in
  let run :=
    chef.prepare scenario.latin1 (scenario.unpacks [("mypkg-1.0", Dir)])
      (scenario.builds
         ["cache"; "artifacts"; "mypkg-1.0.tar.gz"; "mypkg-1.0-py3-none-any.whl"])
      scenario.absolute scenario.the_chef archive None false None w in
  pathlib.is_dir (fs w) archive = false
  /\ pathlib.suffix archive <> ".whl"
  /\ In (MkDtemp ["tmp"; "tmpk3x9"]) (log run.2)
  /\ forall tmp,
       In (MkDtemp tmp) (log run.2) ->
       pathlib.exists_ (fs w) tmp = false
       /\ List.last (log run.2) (MkDtemp tmp) = RmTree tmp
       /\ (forall q, tmp `prefix_of` q -> fs run.2 !! q = None)
       /\ pathlib.exists_ (fs run.2) tmp = false.
Proof.
  intros archive w run.
  assert (pathlib.suffix archive <> ".whl") as Hs by (vm_compute; discriminate).
  split; [reflexivity|]. split; [exact Hs|].
  split; [vm_compute; left; reflexivity|].
  exact (proj2 (proj2
    (unpack_directory_is_removed scenario.latin1
       (scenario.unpacks [("mypkg-1.0", Dir)])
       (scenario.builds
          ["cache"; "artifacts"; "mypkg-1.0.tar.gz"; "mypkg-1.0-py3-none-any.whl"])
       scenario.absolute scenario.the_chef archive None false None w run.1
       run.2 (log run.2)
       eq_refl Hs (surjective_pairing _) eq_refl))).
Defined.

(** The three ways out, on the archive of the specification's scenario:
    the build returns; the backend fails; unpacking raises. Each log ends
    with the removal of the unpack directory. *)
Example sdist_scenario_success :
  let archive := ["srv"; "mypkg-1.0.tar.gz"] in
  let wheel :=
    ["cache"; "artifacts"; "mypkg-1.0.tar.gz"; "mypkg-1.0-py3-none-any.whl"] in
  let run :=
    chef.prepare scenario.latin1 (scenario.unpacks [("mypkg-1.0", Dir)])
      (scenario.builds wheel)
      scenario.absolute scenario.the_chef archive None false None
      (scenario.world [(archive, File)]) in
  run.1 = Return wheel
  /\ List.map source (build_calls (log run.2)) = [["tmp"; "tmpk3x9"; "mypkg-1.0"]]
  /\ List.last (log run.2) (MkDir []) = RmTree ["tmp"; "tmpk3x9"]
  /\ fs run.2 !! ["tmp"; "tmpk3x9"] = None
  /\ fs run.2 !! ["tmp"; "tmpk3x9"; "mypkg-1.0"] = None
  /\ fs run.2 !! wheel = Some File.
Proof. vm_compute. repeat split. Qed.

Example sdist_scenario_backend_failure :
  let archive := ["srv"; "mypkg-1.0.tar.gz"] in
  let run :=
    chef.prepare scenario.latin1 (scenario.unpacks [("mypkg-1.0", Dir)])
      (scenario.build_raises
         (scenario.backend_failure "Backend operation failed"
            (OtherInner "boom")))
      scenario.absolute scenario.the_chef archive None false None
      (scenario.world [(archive, File)]) in
  run.1 = Raise (raise_from_None
                   (IsolatedBuildError
                      ("Backend operation failed" +:+ pystr.blank_line +:+ "boom")))
  /\ List.last (log run.2) (MkDir []) = RmTree ["tmp"; "tmpk3x9"]
  /\ fs run.2 !! ["tmp"; "tmpk3x9"] = None
  /\ fs run.2 !! ["tmp"; "tmpk3x9"; "mypkg-1.0"] = None.
Proof. vm_compute. repeat split. Qed.

Example sdist_scenario_unpack_failure :
  let archive := ["srv"; "mypkg-1.0.tar.gz"] in
  let run :=
    chef.prepare scenario.latin1 scenario.unpack_fails
      (scenario.builds ["out"; "x.whl"])
      scenario.absolute scenario.the_chef archive None false
      None (scenario.world [(archive, File)]) in
  run.1 = Raise (raise_plain (OtherException "ReadError" "not an archive"))
  /\ build_calls (log run.2) = []
  /\ List.last (log run.2) (MkDir []) = RmTree ["tmp"; "tmpk3x9"]
  /\ fs run.2 !! ["tmp"; "tmpk3x9"] = None.
Proof. vm_compute. repeat split. Qed.

(** ** The destination directory *)

Lemma ancestors_from_self (base p : Path) :
  p <> [] -> In (base ++ p) (pathlib.ancestors_from base p).
Proof.
  revert base; induction p as [|c rest IH]; intros base Hp; [done|].
  simpl. destruct rest as [|c' rest'].
  - by left.
  - right. rewrite (cons_middle c base), app_assoc. by apply IH.
Qed.

Lemma foldr_insert_Dir (f : FS) (l : list Path) (q : Path) :
  In q l -> foldr (fun q acc => <[q := Dir]> acc) f l !! q = Some Dir.
Proof.
  induction l as [|a l IH]; simpl; [done|]. intros Hin.
  destruct (decide (a = q)) as [->|Hne].
  - apply lookup_insert_eq.
  - rewrite lookup_insert_ne by done. apply IH. by destruct Hin.
Qed.

(** After [mkdir(parents=True, exist_ok=True)] the path is a directory. *)
Lemma mkdir_parents_exist_ok_is_dir (f f' : FS) (p : Path) :
  pathlib.mkdir_parents_exist_ok f p = Some f' -> pathlib.is_dir f' p = true.
Proof.
  unfold pathlib.mkdir_parents_exist_ok. destruct (forallb _ _); [|done].
  intros [= <-]. destruct p as [|c p]; [done|].
  unfold pathlib.is_dir. apply bool_decide_eq_true, foldr_insert_Dir.
  apply (ancestors_from_self [] (c :: p)). done.
Qed.

Lemma ancestors_from_prefix (base p a : Path) :
  In a (pathlib.ancestors_from base p) -> a `prefix_of` base ++ p.
Proof.
  revert base; induction p as [|c rest IH]; intros base; simpl; [done|].
  intros [<-|Hin].
  - rewrite (cons_middle c base rest), app_assoc. by apply prefix_app_r.
  - rewrite (cons_middle c base rest), app_assoc. by apply IH.
Qed.

Lemma foldr_insert_other (f : FS) (l : list Path) (q : Path) :
  ~ In q l -> foldr (fun q acc => <[q := Dir]> acc) f l !! q = f !! q.
Proof.
  induction l as [|a l IH]; simpl; [done|]. intros Hn.
  rewrite lookup_insert_ne by (intros ->; apply Hn; by left).
  apply IH. intros ?. apply Hn. by right.
Qed.

(** [mkdir(parents=True, exist_ok=True)] touches only the path and its
    ancestors. *)
Lemma mkdir_parents_exist_ok_other (f f' : FS) (p q : Path) :
  pathlib.mkdir_parents_exist_ok f p = Some f' ->
  ~ q `prefix_of` p -> f' !! q = f !! q.
Proof.
  unfold pathlib.mkdir_parents_exist_ok. destruct (forallb _ _); [|done].
  intros [= <-] Hq. apply foldr_insert_other. intros Hin.
  apply Hq. by apply (ancestors_from_prefix [] p q).
Qed.

Lemma ancestors_from_all (base p q : Path) :
  q <> [] -> q `prefix_of` p -> In (base ++ q) (pathlib.ancestors_from base p).
Proof.
  revert base q; induction p as [|c rest IH]; intros base q Hq [k Hk].
  - by destruct q.
  - destruct q as [|c' q']; [done|]. injection Hk as <- ->. simpl.
    destruct q' as [|c'' q''].
    + by left.
    + right. rewrite (cons_middle c base), app_assoc.
      apply IH; [done | by eexists].
Qed.

(** After [mkdir(parents=True, exist_ok=True)] the path and every one of
    its ancestors is a directory. *)
Lemma mkdir_parents_exist_ok_ancestors (f f' : FS) (p q : Path) :
  pathlib.mkdir_parents_exist_ok f p = Some f' ->
  q `prefix_of` p -> pathlib.is_dir f' q = true.
Proof.
  unfold pathlib.mkdir_parents_exist_ok. destruct (forallb _ _); [|done].
  intros [= <-] Hq. destruct q as [|c q]; [done|].
  unfold pathlib.is_dir. apply bool_decide_eq_true, foldr_insert_Dir.
  by apply (ancestors_from_all [] p (c :: q)).
Qed.

(** C8, as worded, does not hold: a destination given for a directory is
    handed to the builder as it is; when it does not exist, [prepare] does
    not make it. *)
Lemma given_destination_of_directory_is_not_created :
  ~ (forall decode extractall_fs backend is_absolute self archive destination editable cs
       w res w' delta call seen d outcome,
       chef.prepare decode extractall_fs backend is_absolute self archive
         (Some destination) editable cs w = (res, w') ->
       log w' = log w ++ delta ->
       In (Build call seen d outcome) delta ->
       d = true).
Proof.
  intros H.
  set (w := scenario.world [(["src"; "pkg"], Dir)]).
  set (build := scenario.builds ["out"; "pkg-1.0-py3-none-any.whl"]).
  set (run := chef.prepare scenario.latin1 scenario.unpack_fails build
                scenario.absolute scenario.the_chef ["src"; "pkg"]
                (Some ["out"]) false None w).
  assert (false = true) as E; [|discriminate E].
  apply (H scenario.latin1 scenario.unpack_fails build
  scenario.absolute scenario.the_chef
           ["src"; "pkg"] ["out"] false None w run.1 run.2 (log run.2)
           (call_of scenario.the_chef ["src"; "pkg"] ["out"] false
              (Some prepare_default_config_settings))
           (Some ∅) false
           (Return ["out"; "pkg-1.0-py3-none-any.whl"])).
  - apply surjective_pairing.
  - reflexivity.
  - vm_compute. left. reflexivity.
Qed.

(** C8, amended: for an archive that is not a wheel, the destination (the
    one given, or else the cache directory of the archive's link) is made
    with its parents right before the build is entered: the builder is
    entered in the file system that [mkdir(parents=True, exist_ok=True)]
    gave back, in which the destination and every one of its ancestors is
    a directory. For a directory, a given destination is
    handed to the builder as it is, made or not, and [prepare] makes no
    directory; without a given destination the builder gets the temporary
    directory just made. *)
Theorem archive_destination_is_created
    decode extractall_fs backend is_absolute self archive output_dir
    editable cs w res w' delta call seen d outcome :
  chef.prepare decode extractall_fs backend is_absolute self archive
    output_dir editable cs w = (res, w') ->
  log w' = log w ++ delta ->
  In (Build call seen d outcome) delta ->
  if pathlib.is_dir (fs w) archive
  then
    match output_dir with
    | Some destination =>
        d = pathlib.is_dir (fs w) destination
        /\ output_directory call = pathlib.as_posix destination
        /\ forall p, ~ In (MkDir p) delta
    | None => d = true
    end
  else
    d = true
    /\ output_directory call
       = pathlib.as_posix (destination_of self archive output_dir)
    /\ (exists before after,
          delta = before
                  ++ [MkDir (destination_of self archive output_dir);
                      Build call seen d outcome]
                  ++ after)
    /\ exists unpacked entered h,
         pathlib.mkdir_parents_exist_ok unpacked
           (destination_of self archive output_dir) = Some entered
         /\ (backend call entered h).1 = outcome
         /\ seen = h !! config_settings call
         /\ d = pathlib.is_dir entered (destination_of self archive output_dir)
         /\ (forall q,
               q `prefix_of` destination_of self archive output_dir ->
               pathlib.is_dir entered q = true)
         /\ (forall q : Path,
               ~ q `prefix_of` destination_of self archive output_dir ->
               entered !! q = unpacked !! q).
Proof.
  intros Hrun Hlog. revert Hrun.
  prepare_cases decode extractall_fs backend is_absolute self archive
    output_dir editable cs w; cbv zeta; cbn [fst snd]; intros Hrun;
    simplify_eq; solve_delta Hlog; subst delta; cbn [In]; intros Hin;
    destruct_or?; simplify_eq; try done.
  - split; [done|]. split; [done|]. intros p Hp. cbn [In] in Hp.
    destruct_or?; by simplify_eq.
  - cbn [fs made_tmp add_log set_tmp_names set_fs].
    apply is_dir_insert_Dir.
  - cbn [fs heap add_log set_fs] in *.
    match goal with
    | H : pathlib.mkdir_parents_exist_ok ?f ?p = Some ?g |- _ =>
        pose proof (mkdir_parents_exist_ok_is_dir f g p H) as Hleaf;
        pose proof (mkdir_parents_exist_ok_ancestors f g p) as Hall;
        pose proof (mkdir_parents_exist_ok_other f g p) as Hother;
        split; [exact Hleaf|]; split; [done|]; split;
          [ eexists [_; _], [_]; reflexivity
          | exists f, g; eexists; split; [exact H|];
            split; [reflexivity|]; split; [reflexivity|];
            split; [by rewrite Hleaf|]; split;
              [ intros q Hq; by apply Hall
              | intros q Hq; by apply Hother ] ]
    end.
Qed.

Lemma archive_destination_is_created_witness :
  let archive := ["srv"; "mypkg-1.0.tar.gz"] in
  let w := scenario.world [(archive, File)] in
  let wheel := ["wheels"; "py3"; "mypkg-1.0-py3-none-any.whl"] in
  let run :=
    chef.prepare scenario.latin1 (scenario.unpacks [("mypkg-1.0", Dir)])
      (scenario.builds wheel) scenario.absolute scenario.the_chef archive
      (Some ["wheels"; "py3"]) false None w in
  let call :=
    call_of scenario.the_chef ["tmp"; "tmpk3x9"; "mypkg-1.0"] ["wheels"; "py3"]
      false None in
  pathlib.is_dir (fs w) ["wheels"; "py3"] = false
  /\ pathlib.is_dir (fs w) ["wheels"] = false
  /\ In (Build call (Some ∅) true (Return wheel)) (log run.2)
  /\ output_directory call = "/wheels/py3"
  /\ (exists before after,
        log run.2
        = before
          ++ [MkDir ["wheels"; "py3"]; Build call (Some ∅) true (Return wheel)]
          ++ after)
  /\ exists entered h,
       (scenario.builds wheel call entered h).1 = Return wheel
       /\ pathlib.is_dir entered ["wheels"; "py3"] = true
       /\ pathlib.is_dir entered ["wheels"] = true.
Proof.
  intros archive w wheel run call.
  assert (In (Build call (Some ∅) true (Return wheel)) (log run.2)) as Hin
    by (vm_compute; do 3 right; left; reflexivity).
  split; [reflexivity|]. split; [vm_compute; reflexivity|].
  split; [exact Hin|].
  destruct
    (archive_destination_is_created scenario.latin1
       (scenario.unpacks [("mypkg-1.0", Dir)]) (scenario.builds wheel)
       scenario.absolute scenario.the_chef archive (Some ["wheels"; "py3"])
       false None w run.1 run.2 (log run.2) call (Some ∅) true (Return wheel)
       (surjective_pairing _) eq_refl Hin)
    as (_ & Hout & Horder & unpacked & entered & h & _ & Hb & _ & _ & Hall & _).
  split; [exact Hout|]. split; [exact Horder|].
  exists entered, h. split; [exact Hb|].
  split; apply Hall; [by exists [] | by exists ["py3"]].
Defined.

(** * Further properties of [prepare] *)

(** ** What a call appends to the log *)

(** The log only grows. *)
Lemma prepare_extends_log
    decode extractall_fs backend is_absolute self archive output_dir
    editable cs w :
  exists delta,
    log (chef.prepare decode extractall_fs backend is_absolute self archive
           output_dir editable cs w).2 = log w ++ delta.
Proof.
  prepare_cases decode extractall_fs backend is_absolute self archive
    output_dir editable cs w; cbv zeta;
    cbn [log add_log set_fs set_heap set_tmp_names removed made_tmp fst snd];
    rewrite <- ?app_assoc; try (by eexists);
    exists []; by rewrite app_nil_r.
Qed.

(** The order of the steps for an archive: once a build is entered, the
    call has made the unpack directory, unpacked the archive into it with
    success, made the destination, entered that one build and removed the
    unpack directory, in this order and nothing else. The archive is read
    as a zip file exactly when its suffix is [".zip"]. *)
Theorem archive_run_order
    decode extractall_fs backend is_absolute self archive output_dir
    editable cs w res w' delta call seen d outcome :
  pathlib.is_dir (fs w) archive = false ->
  chef.prepare decode extractall_fs backend is_absolute self archive
    output_dir editable cs w = (res, w') ->
  log w' = log w ++ delta ->
  In (Build call seen d outcome) delta ->
  exists tmp,
    delta = [MkDtemp tmp;
             ExtractAll archive tmp
               (String.eqb (pathlib.suffix archive) ".zip") (Return tt);
             MkDir (destination_of self archive output_dir);
             Build call seen d outcome;
             RmTree tmp].
Proof.
  intros Hd Hrun Hlog. revert Hrun.
  prepare_cases decode extractall_fs backend is_absolute self archive
    output_dir editable cs w; try congruence; cbv zeta; cbn [fst snd]; intros Hrun;
    simplify_eq; solve_delta Hlog; subst delta; cbn [In]; intros Hin;
    destruct_or?; simplify_eq; try done.
  by eexists.
Qed.

Lemma archive_run_order_witness :
  let archive := ["srv"; "mypkg-1.0.zip"] in
  let w := scenario.world [(archive, File)] in
  let wheel := ["out"; "mypkg-1.0-py3-none-any.whl"] in
  let run :=
    chef.prepare scenario.latin1 (scenario.unpacks [("mypkg-1.0", Dir)])
      (scenario.builds wheel)
      scenario.absolute scenario.the_chef archive (Some ["out"]) false
      None w in
  let call :=
    call_of scenario.the_chef ["tmp"; "tmpk3x9"; "mypkg-1.0"] ["out"] false None in
  exists tmp,
    log run.2 = [MkDtemp tmp; ExtractAll archive tmp true (Return tt);
                 MkDir ["out"]; Build call (Some ∅) true (Return wheel);
                 RmTree tmp].
Proof.
  intros archive w wheel run call.
  apply (archive_run_order scenario.latin1
           (scenario.unpacks [("mypkg-1.0", Dir)]) (scenario.builds wheel)
           scenario.absolute scenario.the_chef archive (Some ["out"]) false
           None w
           run.1 run.2 (log run.2) call (Some ∅) true (Return wheel)
           eq_refl (surjective_pairing _) eq_refl).
  vm_compute. do 3 right. left. reflexivity.
Defined.

(** Unpacking: an archive is unpacked at most once per call, from the
    archive itself into the directory [tempfile] made for this call, as a
    zip file exactly when the suffix is [".zip"]; and when unpacking
    raises, no destination is made and nothing is built. A wheel or a
    directory is never unpacked. *)
Theorem unpacking_of_an_archive
    decode extractall_fs backend is_absolute self archive output_dir
    editable cs w res w' delta source_ dest zip outcome :
  chef.prepare decode extractall_fs backend is_absolute self archive
    output_dir editable cs w = (res, w') ->
  log w' = log w ++ delta ->
  In (ExtractAll source_ dest zip outcome) delta ->
  pathlib.is_dir (fs w) archive = false
  /\ pathlib.suffix archive <> ".whl"
  /\ source_ = archive
  /\ (zip = true <-> pathlib.suffix archive = ".zip")
  /\ (exists rest, delta = MkDtemp dest :: ExtractAll source_ dest zip outcome :: rest)
  /\ pathlib.exists_ (fs w) dest = false
  /\ (forall r, outcome = Raise r ->
        res = Raise r
        /\ delta = [MkDtemp dest; ExtractAll source_ dest zip outcome;
                    RmTree dest]).
Proof.
  intros Hrun Hlog. revert Hrun.
  prepare_cases decode extractall_fs backend is_absolute self archive
    output_dir editable cs w; cbv zeta; cbn [fst snd]; intros Hrun;
    simplify_eq; solve_delta Hlog; subst delta; cbn [In]; intros Hin;
    destruct_or?; simplify_eq; try done.
  all: match goal with
       | H : tempfile.first_free _ _ _ _ = Some _ |- _ =>
           apply first_free_is_free in H as (Hfree & n & _ & ->)
       end.
  all: match goal with
       | H : chef._is_wheel ?a = false |- _ =>
           assert (pathlib.suffix a <> ".whl") by (by apply String.eqb_neq)
       end.
  all: repeat split; try done; try (by apply String.eqb_eq);
    try (by eexists); by simplify_eq.
Qed.

Lemma unpacking_of_an_archive_witness :
  let archive := ["srv"; "mypkg-1.0.tar.gz"] in
  let w := scenario.world [(archive, File)] in
  let run :=
    chef.prepare scenario.latin1 scenario.unpack_fails
      (scenario.builds ["out"; "x.whl"])
      scenario.absolute scenario.the_chef archive None false
      None w in
  let r := raise_plain (OtherException "ReadError" "not an archive") in
  run.1 = Raise r
  /\ log run.2 = [MkDtemp ["tmp"; "tmpk3x9"];
                  ExtractAll archive ["tmp"; "tmpk3x9"] false (Raise r);
                  RmTree ["tmp"; "tmpk3x9"]].
Proof.
  intros archive w run r.
  pose proof
    (unpacking_of_an_archive scenario.latin1 scenario.unpack_fails
       (scenario.builds ["out"; "x.whl"])
       scenario.absolute scenario.the_chef archive None
       false None w run.1 run.2 (log run.2) archive ["tmp"; "tmpk3x9"]
       false (Raise r) (surjective_pairing _) eq_refl
       (or_intror (or_introl eq_refl))) as (_ & _ & _ & _ & _ & _ & H).
  exact (H r eq_refl).
Defined.

(** ** What the builder is asked *)

(** An archive is always built as a wheel: the editable flag reaches the
    builder only for a directory. Every build runs with the interpreter of
    the chef's environment and the chef's pool. *)
Theorem archive_is_built_as_wheel
    decode extractall_fs backend is_absolute self archive output_dir
    editable cs w res w' delta call seen d outcome :
  chef.prepare decode extractall_fs backend is_absolute self archive
    output_dir editable cs w = (res, w') ->
  log w' = log w ++ delta ->
  In (Build call seen d outcome) delta ->
  (pathlib.is_dir (fs w) archive = false -> distribution call = "wheel")
  /\ python_executable call = python (chef._env self)
  /\ pool call = chef._pool self.
Proof.
  intros Hrun Hlog. revert Hrun.
  prepare_cases decode extractall_fs backend is_absolute self archive
    output_dir editable cs w; cbv zeta; cbn [fst snd]; intros Hrun;
    simplify_eq; solve_delta Hlog; subst delta; cbn [In]; intros Hin;
    destruct_or?; simplify_eq; try done.
Qed.

Lemma archive_is_built_as_wheel_witness :
  let archive := ["srv"; "mypkg-1.0.tar.gz"] in
  let w := scenario.world [(archive, File)] in
  let wheel := ["out"; "mypkg-1.0-py3-none-any.whl"] in
  let run :=
    chef.prepare scenario.latin1 (scenario.unpacks [("mypkg-1.0", Dir)])
      (scenario.builds wheel)
      scenario.absolute scenario.the_chef archive (Some ["out"]) true
      None w in
  List.map distribution (build_calls (log run.2)) = ["wheel"]
  /\ forall call seen d outcome,
       In (Build call seen d outcome) (log run.2) ->
       distribution call = "wheel".
Proof.
  intros archive w wheel run. split; [vm_compute; reflexivity|].
  intros call seen d outcome Hin.
  exact (proj1
    (archive_is_built_as_wheel scenario.latin1
       (scenario.unpacks [("mypkg-1.0", Dir)]) (scenario.builds wheel)
       scenario.absolute scenario.the_chef archive (Some ["out"]) true None w
       run.1 run.2
       (log run.2) call seen d outcome (surjective_pairing _) eq_refl Hin)
    eq_refl).
Defined.

(** One call enters the builder at most once, and it returns a path only
    in two ways: the path of the wheel it was given, with nothing done, or
    the very path the builder returned. *)
Theorem prepare_returns_what_was_built
    decode extractall_fs backend is_absolute self archive output_dir
    editable cs w res w' delta :
  chef.prepare decode extractall_fs backend is_absolute self archive
    output_dir editable cs w = (res, w') ->
  log w' = log w ++ delta ->
  length (build_calls delta) <= 1
  /\ forall built,
       res = Return built ->
       (built = archive /\ delta = [] /\ w' = w
        /\ pathlib.is_dir (fs w) archive = false
        /\ pathlib.suffix archive = ".whl")
       \/ (exists call seen d,
             In (Build call seen d (Return built)) delta
             /\ build_calls delta = [call]).
Proof.
  intros Hrun Hlog. revert Hrun.
  prepare_cases decode extractall_fs backend is_absolute self archive
    output_dir editable cs w; outcome_cases backend; intros Hrun; simplify_eq;
    solve_delta Hlog; subst delta; (split; [cbn; lia|]);
    intros built Hres; simplify_eq.
  all: try match goal with
           | H : match exc ?r with _ => _ end = _ |- _ =>
               destruct (exc r); simplify_eq
           end.
  all: try (right; do 3 eexists; split; [in_list | reflexivity]).
  left. repeat split; try done. by apply String.eqb_eq.
Qed.

Lemma prepare_returns_what_was_built_witness :
  let archive := ["srv"; "mypkg-1.0.tar.gz"] in
  let w := scenario.world [(archive, File)] in
  let wheel := ["out"; "mypkg-1.0-py3-none-any.whl"] in
  let run :=
    chef.prepare scenario.latin1 (scenario.unpacks [("mypkg-1.0", Dir)])
      (scenario.builds wheel)
      scenario.absolute scenario.the_chef archive (Some ["out"]) false
      None w in
  run.1 = Return wheel
  /\ length (build_calls (log run.2)) <= 1
  /\ exists call seen d,
       In (Build call seen d (Return wheel)) (log run.2)
       /\ build_calls (log run.2) = [call].
Proof.
  intros archive w wheel run.
  destruct
    (prepare_returns_what_was_built scenario.latin1
       (scenario.unpacks [("mypkg-1.0", Dir)]) (scenario.builds wheel)
       scenario.absolute scenario.the_chef archive (Some ["out"]) false None w
       run.1 run.2
       (log run.2) (surjective_pairing _) eq_refl) as [Hone Hret].
  split; [reflexivity|]. split; [exact Hone|].
  destruct (Hret wheel eq_refl) as [(_ & Hnil & _)|H]; [|exact H].
  vm_compute in Hnil. discriminate Hnil.
Defined.

(** ** Where the project root is looked for *)

Lemma glob_star_children (f : FS) (d e : Path) :
  In e (pathlib.glob_star f d) -> exists n, e = d ++ [n].
Proof.
  unfold pathlib.glob_star. rewrite filter_In. intros [_ H].
  unfold pathlib.is_child_of in H. apply bool_decide_eq_true in H as [H _].
  eauto.
Qed.

Lemma joinpath_inside (d : Path) (s : string) :
  d `prefix_of` pathlib.joinpath d s.
Proof.
  unfold pathlib.joinpath. destruct (String.eqb s ""); [done|].
  by apply prefix_app_r.
Qed.

(** The root that lines 93 to 100 pick is the unpack directory itself or a
    directory in it. *)
Lemma project_root_inside (f : FS) (archive archive_dir : Path) :
  project_root f archive archive_dir = archive_dir
  \/ (archive_dir `prefix_of` project_root f archive archive_dir
      /\ pathlib.is_dir f (project_root f archive archive_dir) = true).
Proof.
  unfold project_root.
  destruct (pathlib.glob_star f archive_dir) as [|element [|? ?]] eqn:E;
    try (destruct (pathlib.is_dir f element) eqn:He;
         [ right; split; [|done];
           destruct (glob_star_children f archive_dir element) as [n ->];
           [rewrite E; by left | by apply prefix_app_r] | ]);
    destruct (pathlib.is_dir f (pathlib.joinpath _ _)) eqn:Hn; cbn [negb];
    first [by left | right; split; [apply joinpath_inside | done]].
Qed.

(** The builder is never sent outside the unpack directory: for an
    archive, the source of the build is the directory [tempfile] made for
    this call, or a path below it. *)
Theorem archive_is_built_inside_unpack_directory
    decode extractall_fs backend is_absolute self archive output_dir
    editable cs w res w' delta call seen d outcome :
  pathlib.is_dir (fs w) archive = false ->
  chef.prepare decode extractall_fs backend is_absolute self archive
    output_dir editable cs w = (res, w') ->
  log w' = log w ++ delta ->
  In (Build call seen d outcome) delta ->
  exists tmp,
    In (MkDtemp tmp) delta
    /\ pathlib.exists_ (fs w) tmp = false
    /\ tmp `prefix_of` source call.
Proof.
  intros Hd Hrun Hlog. revert Hrun.
  prepare_cases decode extractall_fs backend is_absolute self archive
    output_dir editable cs w; try congruence; cbv zeta; cbn [fst snd]; intros Hrun;
    simplify_eq; solve_delta Hlog; subst delta; cbn [In]; intros Hin;
    destruct_or?; simplify_eq; try done.
  match goal with
  | H : tempfile.first_free _ _ _ _ = Some _ |- _ =>
      apply first_free_is_free in H as (Hfree & n & _ & ->)
  end.
  eexists. split; [by left|]. split; [done|].
  cbn [source call_of].
  match goal with
  | |- _ `prefix_of` project_root ?f ?a ?t =>
      destruct (project_root_inside f a t) as [-> | [H _]]; done
  end.
Qed.

Lemma archive_is_built_inside_unpack_directory_witness :
  let archive := ["srv"; "mypkg-1.0.tar.gz"] in
  let w := scenario.world [(archive, File)] in
  let wheel := ["out"; "mypkg-1.0-py3-none-any.whl"] in
  let run :=
    chef.prepare scenario.latin1 (scenario.unpacks [("mypkg-1.0", Dir)])
      (scenario.builds wheel)
      scenario.absolute scenario.the_chef archive (Some ["out"]) false
      None w in
  let call :=
    call_of scenario.the_chef ["tmp"; "tmpk3x9"; "mypkg-1.0"] ["out"] false None in
  exists tmp,
    In (MkDtemp tmp) (log run.2)
    /\ pathlib.exists_ (fs w) tmp = false
    /\ tmp `prefix_of` ["tmp"; "tmpk3x9"; "mypkg-1.0"].
Proof.
  intros archive w wheel run call.
  apply (archive_is_built_inside_unpack_directory scenario.latin1
           (scenario.unpacks [("mypkg-1.0", Dir)]) (scenario.builds wheel)
           scenario.absolute scenario.the_chef archive (Some ["out"]) false
           None w
           run.1 run.2 (log run.2) call (Some ∅) true (Return wheel)
           eq_refl (surjective_pairing _) eq_refl).
  vm_compute. do 3 right. left. reflexivity.
Defined.

(** An archive that unpacks to exactly one top-level entry, a directory,
    is built from that directory, whatever the archive and the directory
    are called. *)
Theorem single_top_level_directory_is_the_root
    decode extractall_fs backend is_absolute self archive output_dir
    editable cs w res w' delta call seen d outcome tmp rest unpacked element :
  pathlib.is_dir (fs w) archive = false ->
  tempfile.first_free (fs w) (tempdir w) "tmp" (tmp_names w) = Some (tmp, rest) ->
  extractall_fs archive tmp (String.eqb (pathlib.suffix archive) ".zip")
    (<[tmp := Dir]> (fs w)) = (Return tt, unpacked) ->
  pathlib.glob_star unpacked tmp = [element] ->
  pathlib.is_dir unpacked element = true ->
  chef.prepare decode extractall_fs backend is_absolute self archive
    output_dir editable cs w = (res, w') ->
  log w' = log w ++ delta ->
  In (Build call seen d outcome) delta ->
  source call = element.
Proof.
  intros Hd Hfree Hex Hglob Helem Hrun Hlog. revert Hrun.
  prepare_cases decode extractall_fs backend is_absolute self archive
    output_dir editable cs w; try congruence; cbv zeta; cbn [fst snd]; intros Hrun;
    simplify_eq; solve_delta Hlog; subst delta; cbn [In]; intros Hin;
    destruct_or?; simplify_eq; try done.
  all: cbn [fs made_tmp add_log set_tmp_names set_fs] in *; simplify_eq;
    try done.
  cbn [source call_of fs made_tmp add_log set_tmp_names set_fs].
  match goal with
  | |- project_root ?g _ _ = _ => assert (g = unpacked) as -> by congruence
  end.
  unfold project_root. by rewrite Hglob, Helem.
Qed.

Lemma single_top_level_directory_is_the_root_witness :
  let archive := ["srv"; "release.tar.gz"] in
  let w := scenario.world [(archive, File)] in
  let wheel := ["out"; "foo-1.0-py3-none-any.whl"] in
  let run :=
    chef.prepare scenario.latin1 (scenario.unpacks [("foo", Dir)])
      (scenario.builds wheel)
      scenario.absolute scenario.the_chef archive (Some ["out"]) false
      None w in
  let call :=
    call_of scenario.the_chef ["tmp"; "tmpk3x9"; "foo"] ["out"] false None in
  In (Build call (Some ∅) true (Return wheel)) (log run.2)
  /\ source call = ["tmp"; "tmpk3x9"; "foo"].
Proof.
  intros archive w wheel run call.
  assert (In (Build call (Some ∅) true (Return wheel)) (log run.2)) as Hin
    by (vm_compute; do 3 right; left; reflexivity).
  split; [exact Hin|].
  apply (single_top_level_directory_is_the_root scenario.latin1
           (scenario.unpacks [("foo", Dir)]) (scenario.builds wheel)
           scenario.absolute scenario.the_chef archive (Some ["out"]) false
           None w
           run.1 run.2 (log run.2) call (Some ∅) true (Return wheel)
           ["tmp"; "tmpk3x9"] ["q7wz"; "m2pd"]
           (<[["tmp"; "tmpk3x9"; "foo"] := Dir]>
              (<[["tmp"; "tmpk3x9"] := Dir]> (fs w)))
           ["tmp"; "tmpk3x9"; "foo"]);
    [ vm_compute; reflexivity | vm_compute; reflexivity
    | reflexivity | vm_compute; reflexivity
    | vm_compute; reflexivity | apply surjective_pairing
    | reflexivity | exact Hin ].
Defined.

(** ** What [prepare] leaves alone *)

(** For a directory nothing is unpacked, no destination is made and
    nothing is removed: the only directory the call can create is the
    temporary destination, and that one is left in place for the caller,
    with whatever the builder put into it. *)
Theorem directory_build_removes_nothing
    decode extractall_fs backend is_absolute self archive output_dir
    editable cs w res w' delta :
  pathlib.is_dir (fs w) archive = true ->
  chef.prepare decode extractall_fs backend is_absolute self archive
    output_dir editable cs w = (res, w') ->
  log w' = log w ++ delta ->
  (forall e, In e delta ->
     match e with
     | Build _ _ _ _ => True
     | MkDtemp _ => output_dir = None
     | _ => False
     end)
  /\ forall call seen d outcome,
       In (Build call seen d outcome) delta ->
       exists f h,
         backend call f h = (outcome, (fs w', heap w')).
Proof.
  intros Hd Hrun Hlog. revert Hrun.
  prepare_cases decode extractall_fs backend is_absolute self archive
    output_dir editable cs w; try congruence; cbv zeta; cbn [fst snd]; intros Hrun;
    simplify_eq; solve_delta Hlog; subst delta.
  all: split;
    [ intros e Hin | intros call seen d outcome Hin ];
    cbn [In] in Hin; destruct_or?; simplify_eq; try done.
  all: cbn [fs heap add_log set_fs set_heap]; do 2 eexists;
    by rewrite <- !surjective_pairing.
Qed.

Lemma directory_build_removes_nothing_witness :
  let w := scenario.world [(["src"; "pkg"], Dir)] in
  let wheel := ["tmp"; "poetry-chef-k3x9"; "pkg-1.0-py3-none-any.whl"] in
  let run :=
    chef.prepare scenario.latin1 scenario.unpack_fails
      (scenario.builds wheel)
      scenario.absolute scenario.the_chef ["src"; "pkg"] None false
      None w in
  (forall e, In e (log run.2) ->
     match e with
     | Build _ _ _ _ => True
     | MkDtemp _ => @None Path = None
     | _ => False
     end)
  /\ fs run.2 !! ["tmp"; "poetry-chef-k3x9"] = Some Dir
  /\ fs run.2 !! wheel = Some File.
Proof.
  intros w wheel run.
  split; [|split; vm_compute; reflexivity].
  exact (proj1
    (directory_build_removes_nothing scenario.latin1 scenario.unpack_fails
       (scenario.builds wheel)
       scenario.absolute scenario.the_chef ["src"; "pkg"] None false
       None w run.1 run.2 (log run.2) eq_refl (surjective_pairing _)
       eq_refl)).
Defined.

(** [prepare] itself writes to no settings dict: whenever the builder
    leaves the store of dicts as it found it, so does the call. *)
Theorem prepare_does_not_write_settings
    decode extractall_fs backend is_absolute self archive output_dir
    editable cs w res w' :
  (forall call f h, (backend call f h).2.2 = h) ->
  chef.prepare decode extractall_fs backend is_absolute self archive
    output_dir editable cs w = (res, w') ->
  heap w' = heap w /\ tempdir w' = tempdir w.
Proof.
  intros Hb. 
  prepare_cases decode extractall_fs backend is_absolute self archive
    output_dir editable cs w; cbv zeta; cbn [fst snd]; intros Hrun;
    simplify_eq;
    cbn [heap tempdir add_log set_fs set_heap set_tmp_names removed made_tmp];
    rewrite ?Hb; done.
Qed.

Lemma prepare_does_not_write_settings_witness :
  let archive := ["srv"; "mypkg-1.0.tar.gz"] in
  let w := scenario.world [(archive, File)] in
  let wheel := ["out"; "mypkg-1.0-py3-none-any.whl"] in
  let run :=
    chef.prepare scenario.latin1 (scenario.unpacks [("mypkg-1.0", Dir)])
      (scenario.builds wheel)
      scenario.absolute scenario.the_chef archive (Some ["out"]) false
      None w in
  heap run.2 = heap w /\ tempdir run.2 = tempdir w.
Proof.
  intros archive w wheel run.
  apply (prepare_does_not_write_settings scenario.latin1
           (scenario.unpacks [("mypkg-1.0", Dir)]) (scenario.builds wheel)
           scenario.absolute scenario.the_chef archive (Some ["out"]) false
           None w run.1).
  - intros call f h. reflexivity.
  - apply surjective_pairing.
Defined.

(** The call itself changes the file system in three places only: the
    temporary directories it makes, the destination with its ancestors,
    and what it removes with the unpack directory. A path that is none of
    these, and that unpacking and the builder leave as it is, is after the
    call what it was before. *)
Theorem prepare_frame
    decode extractall_fs backend is_absolute self archive output_dir
    editable cs w res w' delta (q : Path) :
  (forall source_ dest zip f, (extractall_fs source_ dest zip f).2 !! q = f !! q) ->
  (forall call f h, (backend call f h).2.1 !! q = f !! q) ->
  chef.prepare decode extractall_fs backend is_absolute self archive
    output_dir editable cs w = (res, w') ->
  log w' = log w ++ delta ->
  (forall tmp, In (MkDtemp tmp) delta -> ~ tmp `prefix_of` q) ->
  (forall dest, In (MkDir dest) delta -> ~ q `prefix_of` dest) ->
  fs w' !! q = fs w !! q.
Proof.
  intros Hex Hb Hrun Hlog. revert Hrun.
  prepare_cases decode extractall_fs backend is_absolute self archive
    output_dir editable cs w; cbv zeta; cbn [fst snd]; intros Hrun;
    simplify_eq; solve_delta Hlog; subst delta; intros Htmp Hdest;
    cbn [fs add_log set_fs set_heap set_tmp_names removed made_tmp] in *;
    try done;
  repeat first
    [ rewrite Hb
    | rewrite rmtree_keeps by (apply Htmp; in_list)
    | match goal with
      | H : extractall_fs ?s ?d ?z ?f = (_, ?g) |- _ =>
          let E := fresh in
          assert (g !! q = f !! q) as E
            by (rewrite <- (Hex s d z f), H; done);
          rewrite E; clear E
      | H : pathlib.mkdir_parents_exist_ok ?f ?p = Some ?g |- _ =>
          rewrite (mkdir_parents_exist_ok_other f g p q H)
            by (apply Hdest; in_list)
      end
    | rewrite lookup_insert_ne
        by (intros ->; eapply Htmp; [in_list | done]) ];
  done.
Qed.

Lemma prepare_frame_witness :
  let archive := ["srv"; "mypkg-1.0.tar.gz"] in
  let w := scenario.world [(archive, File)] in
  let wheel := ["out"; "mypkg-1.0-py3-none-any.whl"] in
  let run :=
    chef.prepare scenario.latin1 (scenario.unpacks [("mypkg-1.0", Dir)])
      (scenario.builds wheel)
      scenario.absolute scenario.the_chef archive (Some ["out"]) false
      None w in
  fs run.2 !! archive = fs w !! archive.
Proof.
  intros archive w wheel run.
  assert (log run.2
          = [MkDtemp ["tmp"; "tmpk3x9"];
             ExtractAll archive ["tmp"; "tmpk3x9"] false (Return tt);
             MkDir ["out"];
             Build (call_of scenario.the_chef ["tmp"; "tmpk3x9"; "mypkg-1.0"]
                      ["out"] false None)
               (Some ∅) true (Return wheel);
             RmTree ["tmp"; "tmpk3x9"]]) as Hlog
    by (vm_compute; reflexivity).
  apply (prepare_frame scenario.latin1 (scenario.unpacks [("mypkg-1.0", Dir)])
           (scenario.builds wheel)
           scenario.absolute scenario.the_chef archive (Some ["out"])
           false None w run.1 run.2 (log run.2) archive).
  - intros source_ dest zip f. unfold scenario.unpacks.
    cbn [foldr fst snd]. apply lookup_insert_ne.
    intros E. apply (f_equal (fun l => List.last l "")) in E.
    rewrite List.last_last in E. discriminate E.
  - intros call f h. unfold scenario.builds. cbn [fst snd].
    by apply lookup_insert_ne.
  - apply surjective_pairing.
  - reflexivity.
  - intros tmp Hin [k Hk]. rewrite Hlog in Hin.
    destruct Hin as [E|[E|[E|[E|[E|[]]]]]]; try discriminate E.
    injection E as <-. discriminate Hk.
  - intros dest Hin [k Hk]. rewrite Hlog in Hin.
    destruct Hin as [E|[E|[E|[E|[E|[]]]]]]; try discriminate E.
    injection E as <-. discriminate Hk.
Defined.

(** ** The cache destination *)

Lemma prepare_archive_output_directory
    decode extractall_fs backend is_absolute self archive output_dir
    editable cs w res w' delta call seen d outcome :
  pathlib.is_dir (fs w) archive = false ->
  chef.prepare decode extractall_fs backend is_absolute self archive
    output_dir editable cs w = (res, w') ->
  log w' = log w ++ delta ->
  In (Build call seen d outcome) delta ->
  output_directory call
  = pathlib.as_posix (destination_of self archive output_dir)
  /\ d = true.
Proof.
  intros Hd Hrun Hlog. revert Hrun.
  prepare_cases decode extractall_fs backend is_absolute self archive
    output_dir editable cs w; try congruence; cbv zeta; cbn [fst snd]; intros Hrun;
    simplify_eq; solve_delta Hlog; subst delta; cbn [In]; intros Hin;
    destruct_or?; simplify_eq; try done.
  split; [done|]. cbn [fs add_log set_fs].
  by eapply mkdir_parents_exist_ok_is_dir.
Qed.

(** Without a destination, an archive is built into the cache directory of
    its own link, which exists as a directory when the builder is entered;
    and two calls on the same archive agree on it: whatever the worlds
    they start in, whatever unpack directories they get and whatever the
    collaborators do, both builders are handed the same output
    directory. *)
Theorem cache_destination_is_stable
    decode extractall_fs backend is_absolute
    decode' extractall_fs' backend' is_absolute'
    self archive editable cs editable' cs'
    w1 res1 w1' delta1 call1 seen1 d1 outcome1
    w2 res2 w2' delta2 call2 seen2 d2 outcome2 :
  pathlib.is_dir (fs w1) archive = false ->
  pathlib.is_dir (fs w2) archive = false ->
  chef.prepare decode extractall_fs backend is_absolute self archive None
    editable cs w1 = (res1, w1') ->
  log w1' = log w1 ++ delta1 ->
  In (Build call1 seen1 d1 outcome1) delta1 ->
  chef.prepare decode' extractall_fs' backend' is_absolute' self archive None
    editable' cs' w2 = (res2, w2') ->
  log w2' = log w2 ++ delta2 ->
  In (Build call2 seen2 d2 outcome2) delta2 ->
  output_directory call1 = output_directory call2
  /\ output_directory call1
     = pathlib.as_posix
         (get_cache_directory_for_link (chef._artifact_cache self)
            (file_link archive))
  /\ d1 = true /\ d2 = true.
Proof.
  intros Hd1 Hd2 Hrun1 Hlog1 Hin1 Hrun2 Hlog2 Hin2.
  destruct (prepare_archive_output_directory _ _ _ _ _ _ _ _ _ _ _ _ _
              _ _ _ _ Hd1 Hrun1 Hlog1 Hin1) as [-> ->].
  destruct (prepare_archive_output_directory _ _ _ _ _ _ _ _ _ _ _ _ _
              _ _ _ _ Hd2 Hrun2 Hlog2 Hin2) as [-> ->].
  done.
Qed.

Lemma cache_destination_is_stable_witness :
  let archive := ["srv"; "mypkg-1.0.tar.gz"] in
  let dest := ["cache"; "artifacts"; "mypkg-1.0.tar.gz"] in
  let wheel := dest ++ ["mypkg-1.0-py3-none-any.whl"] in
  let w1 := scenario.world [(archive, File)] in
  let w2 :=
    scenario.world
      [(archive, File); (["tmp"; "tmpk3x9"], Dir); (dest, Dir); (wheel, File)] in
  let prepare :=
    chef.prepare scenario.latin1 (scenario.unpacks [("mypkg-1.0", Dir)])
      (scenario.builds wheel)
      scenario.absolute scenario.the_chef archive None false None in
  let first := prepare w1 in
  let second := prepare w2 in
  List.map source (build_calls (log first.2)) = [["tmp"; "tmpk3x9"; "mypkg-1.0"]]
  /\ List.map source (build_calls (log second.2)) = [["tmp"; "tmpq7wz"; "mypkg-1.0"]]
  /\ forall call1 seen1 d1 outcome1 call2 seen2 d2 outcome2,
       In (Build call1 seen1 d1 outcome1) (log first.2) ->
       In (Build call2 seen2 d2 outcome2) (log second.2) ->
       output_directory call1 = output_directory call2
       /\ output_directory call1 = "/cache/artifacts/mypkg-1.0.tar.gz"
       /\ d1 = true /\ d2 = true.
Proof.
  intros archive dest wheel w1 w2 prepare first second.
  split; [vm_compute; reflexivity|]. split; [vm_compute; reflexivity|].
  intros call1 seen1 d1 outcome1 call2 seen2 d2 outcome2 Hin1 Hin2.
  exact (cache_destination_is_stable
           scenario.latin1 (scenario.unpacks [("mypkg-1.0", Dir)])
           (scenario.builds wheel) scenario.absolute
           scenario.latin1 (scenario.unpacks [("mypkg-1.0", Dir)])
           (scenario.builds wheel) scenario.absolute
           scenario.the_chef archive false None false None
           w1 first.1 first.2 (log first.2) call1 seen1 d1 outcome1
           w2 second.1 second.2 (log second.2) call2 seen2 d2 outcome2
           eq_refl eq_refl (surjective_pairing _) eq_refl Hin1
           (surjective_pairing _) eq_refl Hin2).
Defined.

(** ** The directory looked for by name *)

Lemma mem_In (c : ascii) (set : list ascii) :
  In c set -> pystr.mem c set = true.
Proof.
  intros H. unfold pystr.mem. apply existsb_exists. exists c.
  split; [done | apply Ascii.eqb_refl].
Qed.

Lemma lstrip_chars_app (set l1 l2 : list ascii) :
  (forall c, In c l1 -> pystr.mem c set = true) ->
  pystr.lstrip_chars set (l1 ++ l2) = pystr.lstrip_chars set l2.
Proof.
  induction l1 as [|a l1 IH]; intros H; simpl; [done|].
  rewrite (H a) by (by left). apply IH. intros c Hc. apply H. by right.
Qed.

(** Stripping the characters of [t] from [s + t] strips [t] and goes on
    into [s]. *)
Lemma rstrip_app (s t : string) :
  pystr.rstrip t (s +:+ t) = pystr.rstrip t s.
Proof.
  unfold pystr.rstrip. rewrite pystr_facts.chars_app, rev_app_distr.
  rewrite lstrip_chars_app; [done|].
  intros c Hc. apply mem_In. by apply in_rev.
Qed.

Lemma append_empty (s : string) : s +:+ "" = s.
Proof.
  induction s as [|c s IH]; [done|].
  change (String c (s +:+ "") = String c s). by rewrite IH.
Qed.

(** A name is its stem followed by its suffix. *)
Lemma name_is_stem_and_suffix (p : Path) :
  pathlib.name p = stem p +:+ pathlib.suffix p.
Proof.
  unfold stem, pathlib.suffix. set (n := pathlib.name p). clearbody n.
  assert (n = pystr.of_chars (pystr.chars n) +:+ "") as Hempty
    by (by rewrite pystr_facts.of_chars_chars, append_empty).
  destruct (pystr.rfind "." n) as [i|].
  2:{ simpl. rewrite Nat.sub_0_r, <- pystr_facts.length_chars, firstn_all.
      exact Hempty. }
  destruct ((0 <? i)%nat && (i <? String.length n - 1)%nat) eqn:Hi.
  2:{ simpl. rewrite Nat.sub_0_r, <- pystr_facts.length_chars, firstn_all.
      exact Hempty. }
  apply andb_true_iff in Hi as [_ Hi]. apply Nat.ltb_lt in Hi.
  unfold pystr.slice_from.
  rewrite <- (pystr_facts.length_chars (pystr.of_chars _)),
    pystr_facts.chars_of_chars, length_drop, <- pystr_facts.length_chars.
  replace (length (pystr.chars n) - (length (pystr.chars n) - i)) with i
    by (rewrite <- pystr_facts.length_chars in Hi; lia).
  rewrite <- pystr_facts.of_chars_app, take_drop.
  by rewrite pystr_facts.of_chars_chars.
Qed.

(** Whenever the stem of the archive's name does not itself end in a
    character of the suffix (stripping those characters from the stem
    removes nothing), line 98 looks for the directory named by the stem,
    and the root is the one the rule of the specification names. With
    several suffixes only the last one is removed: for [x.tar.gz] the stem
    is [x.tar]. *)
Theorem named_directory_is_the_stem (f : FS) (archive archive_dir : Path) :
  pystr.rstrip (pathlib.suffix archive) (stem archive) = stem archive ->
  pystr.rstrip (pathlib.suffix archive) (pathlib.name archive) = stem archive
  /\ project_root f archive archive_dir
     = spec_project_root f archive archive_dir.
Proof.
  intros H.
  assert (pystr.rstrip (pathlib.suffix archive) (pathlib.name archive)
          = stem archive) as E.
  { rewrite (name_is_stem_and_suffix archive). by rewrite rstrip_app. }
  split; [exact E|]. by apply project_root_agrees.
Qed.

Lemma named_directory_is_the_stem_witness :
  let archive := ["srv"; "mypkg-1.0.tar.gz"] in
  stem archive = "mypkg-1.0.tar"
  /\ pystr.rstrip (pathlib.suffix archive) (pathlib.name archive)
     = "mypkg-1.0.tar"
  /\ forall f archive_dir,
       project_root f archive archive_dir
       = spec_project_root f archive archive_dir.
Proof.
  intros archive.
  assert (pystr.rstrip (pathlib.suffix archive) (stem archive) = stem archive)
    as H by (vm_compute; reflexivity).
  split; [vm_compute; reflexivity|].
  split.
  - exact (proj1 (named_directory_is_the_stem ∅ archive [] H)).
  - intros f archive_dir.
    exact (proj2 (named_directory_is_the_stem f archive archive_dir H)).
Defined.

(** ** The artifact is left as it is *)




(** The condition on the way to the artifact is needed in a flat map of
    paths: an entry stored below a directory that is not stored lies in
    the way of [tempfile], and goes with the unpack directory. On a real
    file system no such entry exists. *)
Example artifact_below_a_missing_directory :
  let archive := ["tmp"; "tmpk3x9"; "pkg-1.0.tar.gz"] in
  let w := scenario.world [(archive, File)] in
  let run :=
    chef.prepare scenario.latin1 (scenario.unpacks [("pkg-1.0", Dir)])
      (scenario.builds ["out"; "pkg-1.0-py3-none-any.whl"])
      scenario.absolute scenario.the_chef archive (Some ["out"]) false None w in
  pathlib.exists_ (fs w) ["tmp"; "tmpk3x9"] = false
  /\ fs w !! archive = Some File
  /\ fs run.2 !! archive = None.
Proof. vm_compute. repeat split. Qed.

(** ** The errors of [mkdir] and [as_uri] *)

(** A destination below a regular file: [mkdir] raises
    [NotADirectoryError], which leaves [prepare] as it is; a destination
    that is itself a regular file gives [FileExistsError]; an archive with
    a relative path and no destination gives the [ValueError] of
    [as_uri]. In each case nothing is built and the unpack directory is
    removed. *)
Example destination_below_a_file :
  let archive := ["srv"; "pkg-1.0.tar.gz"] in
  let w := scenario.world [(archive, File); (["out"], File)] in
  let run destination :=
    chef.prepare scenario.latin1 (scenario.unpacks [("pkg-1.0", Dir)])
      (scenario.builds ["out"; "pkg-1.0-py3-none-any.whl"])
      scenario.absolute scenario.the_chef archive (Some destination) false
      None w in
  (run ["out"; "sub"]).1 = Raise (raise_plain (NotADirectoryError "/out/sub"))
  /\ (run ["out"]).1 = Raise (raise_plain (FileExistsError "/out"))
  /\ build_calls (log (run ["out"; "sub"]).2) = []
  /\ List.last (log (run ["out"; "sub"]).2) (MkDir [])
     = RmTree ["tmp"; "tmpk3x9"].
Proof. vm_compute. repeat split. Qed.

Example relative_archive_without_destination :
  let archive := ["pkg-1.0.tar.gz"] in
  let w := scenario.world [(archive, File)] in
  let run :=
    chef.prepare scenario.latin1 (scenario.unpacks [("pkg-1.0", Dir)])
      (scenario.builds ["out"; "pkg-1.0-py3-none-any.whl"])
      (fun _ => false) scenario.the_chef archive None false None w in
  run.1 = Raise relative_uri
  /\ log run.2 = [MkDtemp ["tmp"; "tmpk3x9"];
                  ExtractAll archive ["tmp"; "tmpk3x9"] false (Return tt);
                  RmTree ["tmp"; "tmpk3x9"]].
Proof. vm_compute. repeat split. Qed.
